(** * Pakistan OSINT threat assessment: a shallow embedding of the scoring core

    The development follows the Python sources file by file:
    - [Py], [Re], [Json]: the parts of the Python runtime the code calls
      ([str] methods, floats, [re], [json.loads]);
    - [models]: the [Article] record with [to_dict] and [from_dict];
    - [keywords]: the two-layer shortlist filter;
    - [analysis_layers]: Layer 2 scores, Layer 3 parsing, the risk index;
    - [fetcher]: the discovery engine.

    Python [str] values are lists of Unicode code points, Python floats are
    the kernel's binary64 floats, dictionaries are finite maps, and the
    objects a function mutates live in a store addressed by references. *)

From Stdlib Require Import ZArith NArith List String Ascii Bool Lia Floats DecimalString.
From stdpp Require Import gmap strings list fin_maps.

Set Warnings "-register-all,-inexact-float".
Open Scope Z_scope.

(** ** The Python runtime *)

Module Py.

(** A [str] is a sequence of code points. *)
Definition pystr := list N.

Definition py (s : string) : pystr :=
  map (fun a => N_of_ascii a) (list_ascii_of_string s).

(** The part of the Unicode character database the sources consult
    outside ASCII: the word and digit classes of [re], the extra
    case-insensitive equivalences of [re.IGNORECASE], and the case
    mappings of [str.upper], [str.lower] and [str.casefold].  ASCII is
    fixed by the definitions below; the tables are only asked about code
    points from 128 on. *)
Record ucd := {
  u_word : N -> bool;
  u_digit : N -> bool;
  u_ci : N -> N -> bool;
  u_upper : N -> list N;
  u_lower : N -> list N;
  u_casefold : N -> list N
}.

(** The tables of a run that only sees ASCII text. *)
Definition ascii_ucd : ucd := {|
  u_word := fun _ => false;
  u_digit := fun _ => false;
  u_ci := fun _ _ => false;
  u_upper := fun c => c :: nil;
  u_lower := fun c => c :: nil;
  u_casefold := fun c => c :: nil
|}.

Definition is_ascii (c : N) : bool := (c <? 128)%N.
Definition is_ascii_upper (c : N) : bool := ((65 <=? c) && (c <=? 90))%N.
Definition is_ascii_lower (c : N) : bool := ((97 <=? c) && (c <=? 122))%N.
Definition is_ascii_digit (c : N) : bool := ((48 <=? c) && (c <=? 57))%N.
Definition is_ascii_alnum (c : N) : bool :=
  is_ascii_upper c || is_ascii_lower c || is_ascii_digit c.

Definition ascii_to_lower (c : N) : N := if is_ascii_upper c then (c + 32)%N else c.
Definition ascii_to_upper (c : N) : N := if is_ascii_lower c then (c - 32)%N else c.

(** [str.isspace] for one character, which is also [\s] of [re]. *)
Definition is_space (c : N) : bool :=
  ((9 <=? c) && (c <=? 13) || (28 <=? c) && (c <=? 32) || (c =? 133) || (c =? 160)
   || (c =? 5760) || (8192 <=? c) && (c <=? 8202) || (c =? 8232) || (c =? 8233)
   || (c =? 8239) || (c =? 8287) || (c =? 12288))%N.

Fixpoint eqb_str (s t : pystr) : bool :=
  match s, t with
  | nil, nil => true
  | c :: s', d :: t' => (c =? d)%N && eqb_str s' t'
  | _, _ => false
  end.

Fixpoint startswith (s p : pystr) : bool :=
  match p, s with
  | nil, _ => true
  | d :: p', c :: s' => (c =? d)%N && startswith s' p'
  | _ :: _, nil => false
  end.

(** [needle in hay]. *)
Fixpoint contains (hay needle : pystr) : bool :=
  startswith hay needle ||
  match hay with
  | nil => false
  | _ :: hay' => contains hay' needle
  end.

Fixpoint lstrip (s : pystr) : pystr :=
  match s with
  | c :: s' => if is_space c then lstrip s' else s
  | nil => nil
  end.

Definition rstrip (s : pystr) : pystr := rev (lstrip (rev s)).

(** [s.strip()]. *)
Definition strip (s : pystr) : pystr := rstrip (lstrip s).

(** [s.strip(ch)] for a single character [ch]. *)
Fixpoint lstrip_char (ch : N) (s : pystr) : pystr :=
  match s with
  | c :: s' => if (c =? ch)%N then lstrip_char ch s' else s
  | nil => nil
  end.

Definition strip_char (ch : N) (s : pystr) : pystr :=
  rev (lstrip_char ch (rev (lstrip_char ch s))).

(** [s.replace(old, new)] for a single character [old]. *)
Definition replace_char (old : N) (new : pystr) (s : pystr) : pystr :=
  flat_map (fun c => if (c =? old)%N then new else c :: nil) s.

(** [s.split(sep, 1)[0]] for a single character [sep]. *)
Fixpoint before_char (sep : N) (s : pystr) : pystr :=
  match s with
  | c :: s' => if (c =? sep)%N then nil else c :: before_char sep s'
  | nil => nil
  end.

(** [sep.join(parts)]. *)
Fixpoint join (sep : pystr) (parts : list pystr) : pystr :=
  match parts with
  | nil => nil
  | p :: nil => p
  | p :: rest => p ++ sep ++ join sep rest
  end.

Section Case.
Variable U : ucd.

Definition upper_char (c : N) : list N :=
  if is_ascii c then ascii_to_upper c :: nil else u_upper U c.
Definition lower_char (c : N) : list N :=
  if is_ascii c then ascii_to_lower c :: nil else u_lower U c.
Definition casefold_char (c : N) : list N :=
  if is_ascii c then ascii_to_lower c :: nil else u_casefold U c.

Definition upper (s : pystr) : pystr := flat_map upper_char s.
Definition lower (s : pystr) : pystr := flat_map lower_char s.
Definition casefold (s : pystr) : pystr := flat_map casefold_char s.

End Case.

(** [x or d] on an optional string: [None] and the empty string are falsy. *)
Definition str_or (x : option pystr) (d : pystr) : pystr :=
  match x with
  | Some (c :: s) => c :: s
  | _ => d
  end.

(** dict.fromkeys(l) read back as a list: the first occurrence of every
    element, in order. *)
Fixpoint dedup_keep_first (seen l : list pystr) : list pystr :=
  match l with
  | nil => nil
  | x :: l' =>
      if existsb (eqb_str x) seen then dedup_keep_first seen l'
      else x :: dedup_keep_first (x :: seen) l'
  end.

Definition fromkeys (l : list pystr) : list pystr := dedup_keep_first nil l.

(** *** Floats *)

Open Scope float_scope.

(** [min(a, b)] and [max(a, b)] of the builtins keep the first argument
    unless the second compares strictly smaller (larger). *)
Definition min2 (a b : float) : float := if b <? a then b else a.
Definition max2 (a b : float) : float := if a <? b then b else a.

(** Truth value of a float: only zero is falsy (a NaN is truthy). *)
Definition float_truthy (x : float) : bool := negb (x =? 0).

(** [x or d] on an optional float. *)
Definition float_or (x : option float) (d : float) : float :=
  match x with
  | Some v => if float_truthy v then v else d
  | None => d
  end.

(** [float(n)] for an integer: the nearest binary64 float, or
    [OverflowError] ([None]). *)
Definition float_of_Z (z : Z) : option float :=
  let f := SF2Prim (binary_normalize prec emax z 0%Z false) in
  if is_infinity f then None else Some f.

(** [float(n)] where [n] is a small count. *)
Definition float_of_nat (n : nat) : float := of_uint63 (Uint63.of_Z (Z.of_nat n)).

Close Scope float_scope.

End Py.

(** ** Regular expressions: the fragment of [re] the sources use

    A backtracking matcher in continuation-passing style with the
    priorities of [re]: alternatives left to right, quantifiers greedy.
    Patterns are written as in the sources and compiled by [Re.compile]. *)

Module Re.
Import Py.

Inductive cset :=
| CChar (c : N)
| CRange (lo hi : N)
| CDigit
| CSpace
| CWord
| CDot
| CNeg (a : cset)
| COr (a b : cset)
| CNone.

Inductive re :=
| Eps
| Cls (cs : cset)
| Seq (r1 r2 : re)
| Alt (r1 r2 : re)
| Star (r : re)
| WordB
| Bol
| Eol.

Definition Plus (r : re) : re := Seq r (Star r).
Definition Opt (r : re) : re := Alt r Eps.

(** [r{lo,hi}], greedy. *)
Fixpoint Rep (r : re) (lo extra : nat) : re :=
  match lo with
  | S lo' => Seq r (Rep r lo' extra)
  | O => (fix opt (n : nat) : re :=
            match n with
            | O => Eps
            | S n' => Alt (Seq r (opt n')) Eps
            end) extra
  end.

Section Matcher.
Variable U : ucd.
(** [re.IGNORECASE]. *)
Variable ic : bool.

Definition is_word (c : N) : bool :=
  if is_ascii c then is_ascii_alnum c || (c =? 95)%N else u_word U c.

Definition is_digit (c : N) : bool :=
  if is_ascii c then is_ascii_digit c else u_digit U c.

Definition chr_match (c x : N) : bool :=
  (x =? c)%N ||
  (ic && (if is_ascii c && is_ascii x
          then (ascii_to_lower c =? ascii_to_lower x)%N
          else u_ci U c x)).

Definition in_range (lo hi x : N) : bool := ((lo <=? x) && (x <=? hi))%N.

Fixpoint cset_match (cs : cset) (x : N) : bool :=
  match cs with
  | CChar c => chr_match c x
  | CRange lo hi =>
      in_range lo hi x ||
      (ic && is_ascii x &&
       (in_range lo hi (ascii_to_lower x) || in_range lo hi (ascii_to_upper x)))
  | CDigit => is_digit x
  | CSpace => is_space x
  | CWord => is_word x
  | CDot => negb (x =? 10)%N
  | CNeg a => negb (cset_match a x)
  | COr a b => cset_match a x || cset_match b x
  | CNone => false
  end.

Definition opt_word (c : option N) : bool :=
  match c with Some x => is_word x | None => false end.

(** A position: the character before it and the text from it on. *)
Definition pos := (option N * pystr)%type.

Fixpoint m (r : re) (prev : option N) (s : pystr)
    (k : option N -> pystr -> option pos) {struct r} : option pos :=
  match r with
  | Eps => k prev s
  | Cls cs =>
      match s with
      | x :: s' => if cset_match cs x then k (Some x) s' else None
      | nil => None
      end
  | Seq r1 r2 => m r1 prev s (fun p' s' => m r2 p' s' k)
  | Alt r1 r2 =>
      match m r1 prev s k with
      | Some res => Some res
      | None => m r2 prev s k
      end
  | Star r1 =>
      (fix loop (n : nat) (prev : option N) (s : pystr) {struct n} : option pos :=
         match n with
         | O => k prev s
         | S n' =>
             match m r1 prev s
                     (fun p' s' =>
                        if (length s' <? length s)%nat then loop n' p' s' else None)
             with
             | Some res => Some res
             | None => k prev s
             end
         end) (length s) prev s
  | WordB => if xorb (opt_word prev) (opt_word (hd_error s)) then k prev s else None
  | Bol => match prev with None => k prev s | Some _ => None end
  | Eol =>
      match s with
      | nil => k prev s
      | x :: nil => if (x =? 10)%N then k prev s else None
      | _ => None
      end
  end.

(** A match of [r] that starts exactly at the position: where it ends. *)
Definition match_at (r : re) (prev : option N) (s : pystr) : option pos :=
  m r prev s (fun p' s' => Some (p', s')).

(** [re.search]: is there a match starting anywhere in the text? *)
Fixpoint search_from (r : re) (prev : option N) (s : pystr) : bool :=
  match match_at r prev s with
  | Some _ => true
  | None =>
      match s with
      | x :: s' => search_from r (Some x) s'
      | nil => false
      end
  end.

Definition search (r : re) (s : pystr) : bool := search_from r None s.

(** [re.fullmatch]. *)
Definition fullmatch (r : re) (s : pystr) : bool :=
  match m r None s (fun p' s' => match s' with nil => Some (p', s') | _ => None end) with
  | Some _ => true
  | None => false
  end.

(** [re.match]: a match at the start of the text. *)
Definition match_start (r : re) (s : pystr) : option pos := match_at r None s.

End Matcher.
(** The pattern [re.escape(k)]: the text [k] itself. *)
Fixpoint lit (k : pystr) : re :=
  match k with
  | nil => Eps
  | c :: k' => Seq (Cls (CChar c)) (lit k')
  end.

Section Scan.
Variable U : ucd.
Variable ic : bool.
Variable r : re.

Definition step_over (s : pystr) : option pos :=
  match s with
  | x :: s' => Some (Some x, s')
  | nil => None
  end.

(** [len(re.findall(r, s))]: matches are taken left to right and do not
    overlap; after an empty match the scan moves on by one character. *)
Fixpoint count_from (n : nat) (prev : option N) (s : pystr) : nat :=
  match n with
  | O => O
  | S n' =>
      match match_at U ic r prev s with
      | Some (p', s') =>
          if (length s' <? length s)%nat then S (count_from n' p' s')
          else match step_over s with
               | Some (p1, s1) => S (count_from n' p1 s1)
               | None => 1%nat
               end
      | None =>
          match step_over s with
          | Some (p1, s1) => count_from n' p1 s1
          | None => O
          end
      end
  end.

Definition findall_count (s : pystr) : nat := count_from (S (length s)) None s.

(** [re.sub(r, repl, s)] for a pattern that matches no empty text, as all
    the patterns the sources substitute do; an empty match is skipped. *)
Fixpoint sub_from (repl : pystr) (n : nat) (prev : option N) (s : pystr) : pystr :=
  match n with
  | O => s
  | S n' =>
      match match_at U ic r prev s with
      | Some (p', s') =>
          if (length s' <? length s)%nat then repl ++ sub_from repl n' p' s'
          else match s with
               | x :: s1 => x :: sub_from repl n' (Some x) s1
               | nil => nil
               end
      | None =>
          match s with
          | x :: s1 => x :: sub_from repl n' (Some x) s1
          | nil => nil
          end
      end
  end.

Definition sub (repl s : pystr) : pystr := sub_from repl (S (length s)) None s.

(** The text of the first match of [re.search], when there is one. *)
Fixpoint first_match_from (n : nat) (prev : option N) (s : pystr) : option pystr :=
  match n with
  | O => None
  | S n' =>
      match match_at U ic r prev s with
      | Some (_, s') => Some (firstn (length s - length s') s)
      | None =>
          match s with
          | x :: s1 => first_match_from n' (Some x) s1
          | nil => None
          end
      end
  end.

Definition first_match (s : pystr) : option pystr :=
  first_match_from (S (length s)) None s.

End Scan.

(** *** Reading a pattern as the sources write it *)

Fixpoint p_nat (acc : nat) (s : pystr) : nat * pystr :=
  match s with
  | c :: s' =>
      if is_ascii_digit c then p_nat (10 * acc + N.to_nat (c - 48)) s' else (acc, s)
  | nil => (acc, s)
  end.

(** A class escape: the letter after the backslash. *)
Definition escape_cset (c : N) : cset :=
  if (c =? 100)%N then CDigit
  else if (c =? 115)%N then CSpace
  else if (c =? 83)%N then CNeg CSpace
  else if (c =? 119)%N then CWord
  else if (c =? 87)%N then CNeg CWord
  else if (c =? 68)%N then CNeg CDigit
  else CChar c.

(** The items of a bracket class, up to the closing bracket. *)
Fixpoint p_class (fuel : nat) (s : pystr) : option (cset * pystr) :=
  match fuel with
  | O => None
  | S f =>
      match s with
      | 93%N :: s' => Some (CNone, s')
      | 92%N :: c :: s' =>
          match p_class f s' with
          | Some (cs, s'') => Some (COr (escape_cset c) cs, s'')
          | None => None
          end
      | lo :: 45%N :: hi :: s' =>
          if (hi =? 93)%N then
            match p_class f (45%N :: hi :: s') with
            | Some (cs, s'') => Some (COr (CChar lo) cs, s'')
            | None => None
            end
          else
            match p_class f s' with
            | Some (cs, s'') => Some (COr (CRange lo hi) cs, s'')
            | None => None
            end
      | c :: s' =>
          match p_class f s' with
          | Some (cs, s'') => Some (COr (CChar c) cs, s'')
          | None => None
          end
      | nil => None
      end
  end.

(** A quantifier after an atom: [+], [*], [?], [{m}], [{m,n}], [{m,}]. *)
Definition p_quant (r : re) (s : pystr) : option (re * pystr) :=
  match s with
  | 43%N :: s' => Some (Plus r, s')
  | 42%N :: s' => Some (Star r, s')
  | 63%N :: s' => Some (Opt r, s')
  | 123%N :: s' =>
      let '(lo, s1) := p_nat 0 s' in
      match s1 with
      | 125%N :: s2 => Some (Rep r lo 0, s2)
      | 44%N :: 125%N :: s2 => Some (Seq (Rep r lo 0) (Star r), s2)
      | 44%N :: s2 =>
          let '(hi, s3) := p_nat 0 s2 in
          match s3 with
          | 125%N :: s4 => Some (Rep r lo (hi - lo), s4)
          | _ => None
          end
      | _ => None
      end
  | _ => Some (r, s)
  end.

Fixpoint p_alt (fuel : nat) (s : pystr) {struct fuel} : option (re * pystr) :=
  match fuel with
  | O => None
  | S f =>
      match p_seq f s with
      | Some (r1, 124%N :: s') =>
          match p_alt f s' with
          | Some (r2, s'') => Some (Alt r1 r2, s'')
          | None => None
          end
      | other => other
      end
  end
with p_seq (fuel : nat) (s : pystr) {struct fuel} : option (re * pystr) :=
  match fuel with
  | O => None
  | S f =>
      match s with
      | nil => Some (Eps, nil)
      | c :: _ =>
          if ((c =? 124) || (c =? 41))%N then Some (Eps, s)
          else
            match p_atom f s with
            | Some (r, s') =>
                match p_quant r s' with
                | Some (rq, s'') =>
                    match p_seq f s'' with
                    | Some (Eps, s3) => Some (rq, s3)
                    | Some (r2, s3) => Some (Seq rq r2, s3)
                    | None => None
                    end
                | None => None
                end
            | None => None
            end
      end
  end
with p_atom (fuel : nat) (s : pystr) {struct fuel} : option (re * pystr) :=
  match fuel with
  | O => None
  | S f =>
      let group (s' : pystr) :=
        match p_alt f s' with
        | Some (r, 41%N :: s'') => Some (r, s'')
        | _ => None
        end in
      match s with
      | 40%N :: 63%N :: 58%N :: s' => group s'
      | 40%N :: 63%N :: _ => None
      | 40%N :: s' => group s'
      | 91%N :: 94%N :: s' =>
          match p_class (length s) s' with
          | Some (cs, s'') => Some (Cls (CNeg cs), s'')
          | None => None
          end
      | 91%N :: s' =>
          match p_class (length s) s' with
          | Some (cs, s'') => Some (Cls cs, s'')
          | None => None
          end
      | 92%N :: 98%N :: s' => Some (WordB, s')
      | 92%N :: c :: s' => Some (Cls (escape_cset c), s')
      | 94%N :: s' => Some (Bol, s')
      | 36%N :: s' => Some (Eol, s')
      | 46%N :: s' => Some (Cls CDot, s')
      | c :: s' =>
          if ((c =? 43) || (c =? 42) || (c =? 63) || (c =? 123) || (c =? 92))%N
          then None else Some (Cls (CChar c), s')
      | nil => None
      end
  end.

(** [re.compile(pattern)], on the fragment above. *)
Definition compile (pattern : string) : option re :=
  let s := py pattern in
  match p_alt (S (3 * length s)) s with
  | Some (r, nil) => Some r
  | _ => None
  end.

(** A compiled pattern; a text outside the fragment gives the pattern
    that matches nothing. *)
Definition pat (pattern : string) : re :=
  match compile pattern with
  | Some r => r
  | None => Cls CNone
  end.

End Re.

(** ** Python values, as [json.loads] builds them and [raw] stores them *)

Module Val.
Import Py.

Inductive pyval :=
| PNone
| PBool (b : bool)
| PInt (z : Z)
| PFloat (f : float)
| PStr (s : pystr)
| PList (l : list pyval)
| PDict (d : gmap pystr pyval).

(** The truth value [bool(v)]. *)
Definition truthy (v : pyval) : bool :=
  match v with
  | PNone => false
  | PBool b => b
  | PInt z => negb (z =? 0)
  | PFloat f => float_truthy f
  | PStr s => match s with nil => false | _ => true end
  | PList l => match l with nil => false | _ => true end
  | PDict d => negb (bool_decide (d = ∅))
  end.

(** [d.get(k, default)]. *)
Definition get (d : gmap pystr pyval) (k : string) (default : pyval) : pyval :=
  match d !! py k with
  | Some v => v
  | None => default
  end.

(** [x or y]. *)
Definition or_else (x y : pyval) : pyval := if truthy x then x else y.

(** [str(n)] for an integer. *)
Definition str_of_Z (z : Z) : pystr := py (DecimalString.NilZero.string_of_int (Z.to_int z)).

(** [str(v)]: exact on strings, [None], booleans and integers; the text
    of a float, list or dictionary is left to [str_other]. *)
Definition py_str (str_other : pyval -> pystr) (v : pyval) : pystr :=
  match v with
  | PStr s => s
  | PNone => py "None"
  | PBool true => py "True"
  | PBool false => py "False"
  | PInt z => str_of_Z z
  | _ => str_other v
  end.

End Val.

(** ** [json.loads] *)

Module Json.
Import Py Val.

Definition is_json_ws (c : N) : bool :=
  ((c =? 32) || (c =? 9) || (c =? 10) || (c =? 13))%N.

Fixpoint skip_ws (s : pystr) : pystr :=
  match s with
  | c :: s' => if is_json_ws c then skip_ws s' else s
  | nil => nil
  end.

Definition hex_val (c : N) : option N :=
  if is_ascii_digit c then Some (c - 48)%N
  else if ((97 <=? c) && (c <=? 102))%N then Some (c - 87)%N
  else if ((65 <=? c) && (c <=? 70))%N then Some (c - 55)%N
  else None.

(** The four hex digits of a [\u] escape. *)
Definition p_hex4 (s : pystr) : option (N * pystr) :=
  match s with
  | a :: b :: c :: d :: s' =>
      match hex_val a, hex_val b, hex_val c, hex_val d with
      | Some x, Some y, Some z, Some w => Some (((x * 16 + y) * 16 + z) * 16 + w, s')%N
      | _, _, _, _ => None
      end
  | _ => None
  end.

Definition simple_escape (c : N) : option N :=
  if (c =? 34)%N then Some 34%N
  else if (c =? 92)%N then Some 92%N
  else if (c =? 47)%N then Some 47%N
  else if (c =? 98)%N then Some 8%N
  else if (c =? 102)%N then Some 12%N
  else if (c =? 110)%N then Some 10%N
  else if (c =? 114)%N then Some 13%N
  else if (c =? 116)%N then Some 9%N
  else None.

(** The body of a string, after its opening quote (strict mode: no raw
    control character). A high surrogate followed by an escaped low one
    is one code point. *)
Fixpoint p_string (fuel : nat) (s : pystr) : option (pystr * pystr) :=
  match fuel with
  | O => None
  | S f =>
      match s with
      | nil => None
      | 34%N :: s' => Some (nil, s')
      | 92%N :: 117%N :: s' =>
          match p_hex4 s' with
          | Some (u, s1) =>
              let lone :=
                match p_string f s1 with
                | Some (body, s2) => Some (u :: body, s2)
                | None => None
                end in
              if ((55296 <=? u) && (u <=? 56319))%N then
                match s1 with
                | 92%N :: 117%N :: s2 =>
                    match p_hex4 s2 with
                    | Some (v, s3) =>
                        if ((56320 <=? v) && (v <=? 57343))%N then
                          match p_string f s3 with
                          | Some (body, s4) =>
                              Some ((65536 + (u - 55296) * 1024 + (v - 56320))%N :: body, s4)
                          | None => None
                          end
                        else lone
                    | None => lone
                    end
                | _ => lone
                end
              else lone
          | None => None
          end
      | 92%N :: c :: s' =>
          match simple_escape c with
          | Some x =>
              match p_string f s' with
              | Some (body, s2) => Some (x :: body, s2)
              | None => None
              end
          | None => None
          end
      | c :: s' =>
          if (c <? 32)%N then None
          else
            match p_string f s' with
            | Some (body, s2) => Some (c :: body, s2)
            | None => None
            end
      end
  end.

(** A run of decimal digits: its value and how many there were. *)
Fixpoint p_digits (acc : Z) (n : nat) (s : pystr) : Z * nat * pystr :=
  match s with
  | c :: s' =>
      if is_ascii_digit c then p_digits (10 * acc + Z.of_N (c - 48)) (S n) s'
      else (acc, n, s)
  | nil => (acc, n, s)
  end.

(** The float nearest to [m * 10 ^ e] (round half to even), as [float]
    reads a decimal literal. *)
Definition float_of_decimal (neg : bool) (m e : Z) : float :=
  let sgn (z : Z) := if neg then (- z)%Z else z in
  if (m =? 0)%Z then (if neg then (-0)%float else 0%float)
  else if (0 <=? e)%Z then
    SF2Prim (binary_normalize prec emax (sgn (m * 10 ^ e)) 0 neg)
  else
    let d := (10 ^ (- e))%Z in
    let k := Z.max 0 (66 + Z.log2 d - Z.log2 m) in
    let q := ((m * 2 ^ k) / d)%Z in
    let sticky := if ((m * 2 ^ k) mod d =? 0)%Z then 0 else 1 in
    SF2Prim (binary_normalize prec emax (sgn (2 * q + sticky)) (- (k + 1)) neg).

(** A number as the decoder's pattern reads it: an optional minus sign, an
    integer part without a leading zero, an optional fraction, an optional
    exponent. Without fraction and exponent it is an [int], otherwise a
    [float]. *)
Definition p_number (s : pystr) : option (pyval * pystr) :=
  let '(neg, s0) := match s with 45%N :: t => (true, t) | _ => (false, s) end in
  let int_part :=
    match s0 with
    | 48%N :: t => Some (0%Z, t)
    | c :: _ => if is_ascii_digit c then let '(v, _, t) := p_digits 0 0 s0 in Some (v, t) else None
    | nil => None
    end in
  match int_part with
  | None => None
  | Some (iv, s1) =>
      let '(fv, fn, s2, has_frac) :=
        match s1 with
        | 46%N :: t =>
            let '(v, n, t') := p_digits iv 0 t in
            if (0 <? n)%nat then (v, n, t', true) else (iv, 0%nat, s1, false)
        | _ => (iv, 0%nat, s1, false)
        end in
      let exp_of (t : pystr) (eneg : bool) :=
        let '(v, n, t') := p_digits 0 0 t in
        if (0 <? n)%nat then Some ((if eneg then - v else v)%Z, t') else None in
      let exp_part :=
        match s2 with
        | c :: t =>
            if ((c =? 101) || (c =? 69))%N then
              match t with
              | 45%N :: t' => exp_of t' true
              | 43%N :: t' => exp_of t' false
              | _ => exp_of t false
              end
            else None
        | nil => None
        end in
      match has_frac, exp_part with
      | false, None => Some (PInt (if neg then - iv else iv), s1)
      | _, Some (ev, s3) => Some (PFloat (float_of_decimal neg fv (ev - Z.of_nat fn)), s3)
      | true, None => Some (PFloat (float_of_decimal neg fv (- Z.of_nat fn)), s2)
      end
  end.

(** One JSON value from the start of [s] (no leading blanks), and the text
    after it. [fuel] bounds the nesting and the number of members. *)
Fixpoint p_value (fuel : nat) (s : pystr) {struct fuel} : option (pyval * pystr) :=
  match fuel with
  | O => None
  | S f =>
      match s with
      | 34%N :: s' =>
          match p_string (S (length s')) s' with
          | Some (body, s2) => Some (PStr body, s2)
          | None => None
          end
      | 123%N :: s' =>
          match skip_ws s' with
          | 125%N :: s2 => Some (PDict ∅, s2)
          | s1 =>
              match p_members f ∅ s1 with
              | Some (d, s2) => Some (PDict d, s2)
              | None => None
              end
          end
      | 91%N :: s' =>
          match skip_ws s' with
          | 93%N :: s2 => Some (PList nil, s2)
          | s1 =>
              match p_elements f s1 with
              | Some (l, s2) => Some (PList l, s2)
              | None => None
              end
          end
      | _ =>
          if startswith s (py "null") then Some (PNone, skipn 4 s)
          else if startswith s (py "true") then Some (PBool true, skipn 4 s)
          else if startswith s (py "false") then Some (PBool false, skipn 5 s)
          else
            match p_number s with
            | Some res => Some res
            | None =>
                if startswith s (py "NaN") then Some (PFloat nan, skipn 3 s)
                else if startswith s (py "Infinity") then Some (PFloat infinity, skipn 8 s)
                else if startswith s (py "-Infinity") then Some (PFloat neg_infinity, skipn 9 s)
                else None
            end
      end
  end
(** The members of an object from its first key on; [s] starts at the
    key's opening quote. A repeated key keeps its last value. *)
with p_members (fuel : nat) (d : gmap pystr pyval) (s : pystr) {struct fuel}
    : option (gmap pystr pyval * pystr) :=
  match fuel with
  | O => None
  | S f =>
      match s with
      | 34%N :: s' =>
          match p_string (S (length s')) s' with
          | Some (key, s1) =>
              match skip_ws s1 with
              | 58%N :: s2 =>
                  match p_value f (skip_ws s2) with
                  | Some (v, s3) =>
                      let d' := <[key := v]> d in
                      match skip_ws s3 with
                      | 125%N :: s4 => Some (d', s4)
                      | 44%N :: s4 => p_members f d' (skip_ws s4)
                      | _ => None
                      end
                  | None => None
                  end
              | _ => None
              end
          | None => None
          end
      | _ => None
      end
  end
(** The elements of a non-empty array. *)
with p_elements (fuel : nat) (s : pystr) {struct fuel} : option (list pyval * pystr) :=
  match fuel with
  | O => None
  | S f =>
      match p_value f s with
      | Some (v, s1) =>
          match skip_ws s1 with
          | 93%N :: s2 => Some (v :: nil, s2)
          | 44%N :: s2 =>
              match p_elements f (skip_ws s2) with
              | Some (l, s3) => Some (v :: l, s3)
              | None => None
              end
          | _ => None
          end
      | None => None
      end
  end.

(** [json.loads(s)]: one value, blanks around it, nothing else; [None]
    stands for the decoder's exception. *)
Definition loads (s : pystr) : option pyval :=
  match p_value (S (length s)) (skip_ws s) with
  | Some (v, rest) =>
      match skip_ws rest with
      | nil => Some v
      | _ => None
      end
  | None => None
  end.

End Json.

(** ** models.py *)

Module models.
Import Py Val.

(** The fields of the [Article] dataclass, grouped as its source groups
    them. *)

(** Identity / origin. *)
Record Identity := {
  id : pystr;
  country : pystr;
  source_name : pystr;
  source_slug : pystr;
  url : pystr
}.

(** Core metadata. *)
Record CoreMeta := {
  title : pystr;
  published_at : option pystr;
  author : option pystr;
  summary : option pystr
}.

(** Content extraction. *)
Record Content := {
  content_text : option pystr;
  content_length : Z;
  extraction_method : pystr;
  extraction_notes : list pystr
}.

(** Run / session context. *)
Record RunContext := {
  run_id : option pystr;
  run_created_at : option pystr;
  fetched_at : option pystr
}.

(** Keyword shortlisting: the backward compatible lists, the funnel flags
    and the explicit Layer 1 outputs. *)
Record Keywords := {
  keywords_matched : list pystr;
  keywords_national_matched : list pystr;
  keywords_threat_matched : list pystr;
  national_relevant : option bool;
  threat_relevant : option bool;
  shortlisted : option bool;
  kw_national_hits : list pystr;
  kw_threat_hits : list pystr
}.

(** Layer 2 (algorithmic scoring). *)
Record Layer2 := {
  relevance_score : option float;
  evidence_strength : option pystr;
  evidence_numeric : option float;
  urgency_score : option float;
  keyword_intensity : option float;
  prepriority_score : option float;
  prepriority_bucket : option pystr
}.

(** Layer 3 (LLM threat severity). *)
Record Layer3 := {
  threat_score : option float;
  threat_level : option pystr;
  threat_vector : option pystr;
  one_liner_threat : option pystr;
  reasons : list pystr
}.

(** Stubs / legacy. *)
Record Legacy := {
  truth_score : option float;
  truth_label : option pystr;
  truth_reasons : list pystr;
  threat_factors : list pystr
}.

Record Article := {
  ident : Identity;
  meta : CoreMeta;
  content : Content;
  run : RunContext;
  kw : Keywords;
  layer2 : Layer2;
  layer3 : Layer3;
  risk_index : option float;
  legacy : Legacy;
  raw : gmap pystr pyval
}.

(** Assignments to the attributes of an article. *)
Definition set_ident (v : Identity) (a : Article) : Article :=
  {| ident := v; meta := meta a; content := content a; run := run a; kw := kw a;
     layer2 := layer2 a; layer3 := layer3 a; risk_index := risk_index a;
     legacy := legacy a; raw := raw a |}.
Definition set_meta (v : CoreMeta) (a : Article) : Article :=
  {| ident := ident a; meta := v; content := content a; run := run a; kw := kw a;
     layer2 := layer2 a; layer3 := layer3 a; risk_index := risk_index a;
     legacy := legacy a; raw := raw a |}.
Definition set_content (v : Content) (a : Article) : Article :=
  {| ident := ident a; meta := meta a; content := v; run := run a; kw := kw a;
     layer2 := layer2 a; layer3 := layer3 a; risk_index := risk_index a;
     legacy := legacy a; raw := raw a |}.
Definition set_kw (v : Keywords) (a : Article) : Article :=
  {| ident := ident a; meta := meta a; content := content a; run := run a; kw := v;
     layer2 := layer2 a; layer3 := layer3 a; risk_index := risk_index a;
     legacy := legacy a; raw := raw a |}.
Definition set_layer2 (v : Layer2) (a : Article) : Article :=
  {| ident := ident a; meta := meta a; content := content a; run := run a; kw := kw a;
     layer2 := v; layer3 := layer3 a; risk_index := risk_index a;
     legacy := legacy a; raw := raw a |}.
Definition set_layer3 (v : Layer3) (a : Article) : Article :=
  {| ident := ident a; meta := meta a; content := content a; run := run a; kw := kw a;
     layer2 := layer2 a; layer3 := v; risk_index := risk_index a;
     legacy := legacy a; raw := raw a |}.
Definition set_risk_index (v : option float) (a : Article) : Article :=
  {| ident := ident a; meta := meta a; content := content a; run := run a; kw := kw a;
     layer2 := layer2 a; layer3 := layer3 a; risk_index := v;
     legacy := legacy a; raw := raw a |}.
Definition set_raw (v : gmap pystr pyval) (a : Article) : Article :=
  {| ident := ident a; meta := meta a; content := content a; run := run a; kw := kw a;
     layer2 := layer2 a; layer3 := layer3 a; risk_index := risk_index a;
     legacy := legacy a; raw := v |}.

(** [a.extraction_notes.append(note)]. *)
Definition append_note (note : pystr) (a : Article) : Article :=
  set_content
    {| content_text := content_text (content a);
       content_length := content_length (content a);
       extraction_method := extraction_method (content a);
       extraction_notes := extraction_notes (content a) ++ note :: nil |} a.

(** The objects a function mutates: references into a store. *)
Definition ref := nat.
Definition store := ref -> Article.

Definition upd (s : store) (r : ref) (a : Article) : store :=
  fun r' => if Nat.eqb r' r then a else s r'.

(** *** [Article.to_dict] *)

Definition of_opt_str (x : option pystr) : pyval :=
  match x with Some s => PStr s | None => PNone end.
Definition of_opt_float (x : option float) : pyval :=
  match x with Some f => PFloat f | None => PNone end.
Definition of_opt_bool (x : option bool) : pyval :=
  match x with Some b => PBool b | None => PNone end.
Definition of_strs (l : list pystr) : pyval := PList (map PStr l).

Definition to_dict (self : Article) : gmap pystr pyval :=
  list_to_map (
    (py "id", PStr (id (ident self))) ::
    (py "country", PStr (country (ident self))) ::
    (py "source_name", PStr (source_name (ident self))) ::
    (py "source_slug", PStr (source_slug (ident self))) ::
    (py "url", PStr (url (ident self))) ::
    (py "title", PStr (title (meta self))) ::
    (py "published_at", of_opt_str (published_at (meta self))) ::
    (py "author", of_opt_str (author (meta self))) ::
    (py "summary", of_opt_str (summary (meta self))) ::
    (py "content_text", of_opt_str (content_text (content self))) ::
    (py "content_length", PInt (content_length (content self))) ::
    (py "extraction_method", PStr (extraction_method (content self))) ::
    (py "extraction_notes", of_strs (extraction_notes (content self))) ::
    (py "run_id", of_opt_str (run_id (run self))) ::
    (py "run_created_at", of_opt_str (run_created_at (run self))) ::
    (py "fetched_at", of_opt_str (fetched_at (run self))) ::
    (py "keywords_matched", of_strs (keywords_matched (kw self))) ::
    (py "keywords_national_matched", of_strs (keywords_national_matched (kw self))) ::
    (py "keywords_threat_matched", of_strs (keywords_threat_matched (kw self))) ::
    (py "national_relevant", of_opt_bool (national_relevant (kw self))) ::
    (py "threat_relevant", of_opt_bool (threat_relevant (kw self))) ::
    (py "shortlisted", of_opt_bool (shortlisted (kw self))) ::
    (py "kw_national_hits", of_strs (kw_national_hits (kw self))) ::
    (py "kw_threat_hits", of_strs (kw_threat_hits (kw self))) ::
    (py "relevance_score", of_opt_float (relevance_score (layer2 self))) ::
    (py "evidence_strength", of_opt_str (evidence_strength (layer2 self))) ::
    (py "evidence_numeric", of_opt_float (evidence_numeric (layer2 self))) ::
    (py "urgency_score", of_opt_float (urgency_score (layer2 self))) ::
    (py "keyword_intensity", of_opt_float (keyword_intensity (layer2 self))) ::
    (py "prepriority_score", of_opt_float (prepriority_score (layer2 self))) ::
    (py "prepriority_bucket", of_opt_str (prepriority_bucket (layer2 self))) ::
    (py "threat_score", of_opt_float (threat_score (layer3 self))) ::
    (py "threat_level", of_opt_str (threat_level (layer3 self))) ::
    (py "threat_vector", of_opt_str (threat_vector (layer3 self))) ::
    (py "one_liner_threat", of_opt_str (one_liner_threat (layer3 self))) ::
    (py "reasons", of_strs (reasons (layer3 self))) ::
    (py "risk_index", of_opt_float (risk_index self)) ::
    (py "truth_score", of_opt_float (truth_score (legacy self))) ::
    (py "truth_label", of_opt_str (truth_label (legacy self))) ::
    (py "truth_reasons", of_strs (truth_reasons (legacy self))) ::
    (py "threat_factors", of_strs (threat_factors (legacy self))) ::
    (py "raw", PDict (raw self)) :: nil).

(** *** [Article.from_dict]

    The loader is written for any mapping. The record here is typed, so a
    read answers [None] both where Python raises and where the value read
    has a type other than the one the dataclass declares for the field. *)

(** [str(d.get(k, "") or "")]. *)
Definition read_str (str_other : pyval -> pystr) (d : gmap pystr pyval) (k : string) : pystr :=
  py_str str_other (or_else (get d k (PStr nil)) (PStr nil)).

(** [d.get(k)] for a field declared [Optional[str]]. *)
Definition read_opt_str (d : gmap pystr pyval) (k : string) : option (option pystr) :=
  match d !! py k with
  | None | Some PNone => Some None
  | Some (PStr s) => Some (Some s)
  | Some _ => None
  end.

(** [d.get(k)] for a field declared [Optional[float]]. *)
Definition read_opt_float (d : gmap pystr pyval) (k : string) : option (option float) :=
  match d !! py k with
  | None | Some PNone => Some None
  | Some (PFloat f) => Some (Some f)
  | Some (PInt z) => match float_of_Z z with Some f => Some (Some f) | None => None end
  | Some _ => None
  end.

(** [d.get(k)] for a field declared [Optional[bool]]. *)
Definition read_opt_bool (d : gmap pystr pyval) (k : string) : option (option bool) :=
  match d !! py k with
  | None | Some PNone => Some None
  | Some (PBool b) => Some (Some b)
  | Some _ => None
  end.

Fixpoint strs_of (l : list pyval) : option (list pystr) :=
  match l with
  | nil => Some nil
  | PStr s :: l' => match strs_of l' with Some r => Some (s :: r) | None => None end
  | _ :: _ => None
  end.

(** [list(d.get(k, []) or [])] for a field declared [List[str]]. *)
Definition read_strs (d : gmap pystr pyval) (k : string) : option (list pystr) :=
  match or_else (get d k (PList nil)) (PList nil) with
  | PList l => strs_of l
  | PStr s => Some (map (fun c => c :: nil) s)
  | _ => None
  end.

(** [int(d.get(k, 0) or 0)]. *)
Definition read_int (d : gmap pystr pyval) (k : string) : option Z :=
  match or_else (get d k (PInt 0)) (PInt 0) with
  | PInt z => Some z
  | PBool b => Some (if b then 1 else 0)
  | _ => None
  end.

(** [dict(d.get(k, {}) or {})]. *)
Definition read_dict (d : gmap pystr pyval) (k : string) : option (gmap pystr pyval) :=
  match or_else (get d k (PDict ∅)) (PDict ∅) with
  | PDict m => Some m
  | _ => None
  end.

Definition from_dict (str_other : pyval -> pystr) (d : gmap pystr pyval) : option Article :=
  km ← read_strs d "keywords_matched";
  kn0 ← read_strs d "keywords_national_matched";
  kt ← read_strs d "keywords_threat_matched";
  (* carry old keywords_matched into national matches if needed *)
  let kn :=
    match km, kn0 with
    | _ :: _, nil => fromkeys km
    | _, _ => kn0
    end in
  raw_d ← read_dict d "raw";
  (* explicit kw fields may be missing, try raw fallback *)
  kw_nat0 ← read_strs d "kw_national_hits";
  kw_nat ← match kw_nat0 with
           | nil => read_strs raw_d "kw_national_hits"
           | _ => Some kw_nat0
           end;
  kw_thr0 ← read_strs d "kw_threat_hits";
  kw_thr ← match kw_thr0 with
           | nil => read_strs raw_d "kw_threat_hits"
           | _ => Some kw_thr0
           end;
  published_at_ ← read_opt_str d "published_at";
  author_ ← read_opt_str d "author";
  summary_ ← read_opt_str d "summary";
  content_text_ ← read_opt_str d "content_text";
  content_length_ ← read_int d "content_length";
  extraction_notes_ ← read_strs d "extraction_notes";
  run_id_ ← read_opt_str d "run_id";
  run_created_at_ ← read_opt_str d "run_created_at";
  fetched_at_ ← read_opt_str d "fetched_at";
  national_relevant_ ← read_opt_bool d "national_relevant";
  threat_relevant_ ← read_opt_bool d "threat_relevant";
  shortlisted_ ← read_opt_bool d "shortlisted";
  relevance_score_ ← read_opt_float d "relevance_score";
  evidence_strength_ ← read_opt_str d "evidence_strength";
  evidence_numeric_ ← read_opt_float d "evidence_numeric";
  urgency_score_ ← read_opt_float d "urgency_score";
  keyword_intensity_ ← read_opt_float d "keyword_intensity";
  prepriority_score_ ← read_opt_float d "prepriority_score";
  prepriority_bucket_ ← read_opt_str d "prepriority_bucket";
  threat_score_ ← read_opt_float d "threat_score";
  threat_level_ ← read_opt_str d "threat_level";
  threat_vector_ ← read_opt_str d "threat_vector";
  one_liner_threat_ ← read_opt_str d "one_liner_threat";
  reasons_ ← read_strs d "reasons";
  risk_index_ ← read_opt_float d "risk_index";
  truth_score_ ← read_opt_float d "truth_score";
  truth_label_ ← read_opt_str d "truth_label";
  truth_reasons_ ← read_strs d "truth_reasons";
  threat_factors_ ← read_strs d "threat_factors";
  Some {|
    ident := {|
      id := read_str str_other d "id";
      country := read_str str_other d "country";
      source_name := read_str str_other d "source_name";
      source_slug := read_str str_other d "source_slug";
      url := read_str str_other d "url" |};
    meta := {|
      title := read_str str_other d "title";
      published_at := published_at_;
      author := author_;
      summary := summary_ |};
    content := {|
      content_text := content_text_;
      content_length := content_length_;
      extraction_method := read_str str_other d "extraction_method";
      extraction_notes := extraction_notes_ |};
    run := {|
      run_id := run_id_;
      run_created_at := run_created_at_;
      fetched_at := fetched_at_ |};
    kw := {|
      keywords_matched := km;
      keywords_national_matched := kn;
      keywords_threat_matched := kt;
      national_relevant := national_relevant_;
      threat_relevant := threat_relevant_;
      shortlisted := shortlisted_;
      kw_national_hits := kw_nat;
      kw_threat_hits := kw_thr |};
    layer2 := {|
      relevance_score := relevance_score_;
      evidence_strength := evidence_strength_;
      evidence_numeric := evidence_numeric_;
      urgency_score := urgency_score_;
      keyword_intensity := keyword_intensity_;
      prepriority_score := prepriority_score_;
      prepriority_bucket := prepriority_bucket_ |};
    layer3 := {|
      threat_score := threat_score_;
      threat_level := threat_level_;
      threat_vector := threat_vector_;
      one_liner_threat := one_liner_threat_;
      reasons := reasons_ |};
    risk_index := risk_index_;
    legacy := {|
      truth_score := truth_score_;
      truth_label := truth_label_;
      truth_reasons := truth_reasons_;
      threat_factors := threat_factors_ |};
    raw := raw_d
  |}.

End models.

(** ** keywords.py *)

Module keywords.
Import Py Val Re models.

Section WithUnicode.
Variable U : ucd.

(** Strip, drop the empty ones, and dedupe by [casefold] while preserving
    order. *)
Fixpoint uniq_casefold (seen : list pystr) (l : list pystr) : list pystr :=
  match l with
  | nil => nil
  | k :: l' =>
      let key := casefold U k in
      if existsb (eqb_str key) seen then uniq_casefold seen l'
      else k :: uniq_casefold (key :: seen) l'
  end.

Definition _clean_keywords (kws : list pystr) : list pystr :=
  let out := List.filter (fun k2 => match k2 with nil => false | _ => true end) (map strip kws) in
  uniq_casefold nil out.

Definition _normalize_text (s : pystr) : pystr :=
  let s := replace_char 160 (py " ") s in
  strip (Re.sub U false (pat "\s+") (py " ") s).

(** A compiled keyword: the pattern and its flag [re.IGNORECASE]. *)
Definition _compile_keyword_patterns (keywords : list pystr) : list (pystr * re) :=
  map (fun k =>
         if Re.fullmatch U false (pat "[A-Za-z0-9]+") k
         then (k, Seq WordB (Seq (lit k) WordB))
         else (k, lit k))
      (_clean_keywords keywords).

Definition _match_keywords (hay : pystr) (patterns : list (pystr * re)) : list pystr :=
  let hay := _normalize_text hay in
  map fst (List.filter (fun kp => Re.search U true (snd kp) hay) patterns).

Definition _article_haystack (a : Article) : pystr :=
  join (py " ")
    (title (meta a) ::
     str_or (summary (meta a)) nil ::
     str_or (content_text (content a)) nil ::
     url (ident a) ::
     str_or (author (meta a)) nil :: nil).

(** [len(l) > 0], which is also [bool(l)]. *)
Definition nonempty (l : list pystr) : bool :=
  match l with nil => false | _ => true end.

Definition _write_layer1_fields (a : Article) (nat_hits thr_hits : list pystr)
    (shortlisted_ : bool) : Article :=
  let national_relevant_ := nonempty nat_hits in
  let a1 :=
    set_kw
      {| (* Spec fields *)
         kw_national_hits := nat_hits;
         kw_threat_hits := thr_hits;
         shortlisted := Some shortlisted_;
         (* Existing/legacy fields (kept consistent) *)
         keywords_national_matched := nat_hits;
         keywords_threat_matched := thr_hits;
         national_relevant := Some national_relevant_;
         threat_relevant := Some (if national_relevant_ then nonempty thr_hits else false);
         (* keywords_matched legacy union *)
         keywords_matched := fromkeys (keywords_matched (kw a) ++ nat_hits ++ thr_hits) |} a in
  (* Also write into raw for UI compatibility across versions *)
  set_raw
    (<[py "kw_shortlisted" := PBool shortlisted_]>
       (<[py "kw_threat_hits" := of_strs thr_hits]>
          (<[py "kw_national_hits" := of_strs nat_hits]> (raw a1)))) a1.

Record ShortlistResult := {
  articles_all : list ref;
  national_pass : list ref;
  threat_pass : list ref;
  national_total_hits : nat;
  threat_total_hits : nat
}.

(** The first loop: reset all Layer 1 fields to avoid stale values. *)
Definition reset_fields (a : Article) : Article :=
  let a1 :=
    set_kw
      {| kw_national_hits := nil;
         kw_threat_hits := nil;
         keywords_national_matched := nil;
         keywords_threat_matched := nil;
         national_relevant := Some false;
         threat_relevant := Some false;
         shortlisted := Some false;
         keywords_matched := keywords_matched (kw a) |} a in
  set_raw
    (<[py "kw_shortlisted" := PBool false]>
       (<[py "kw_threat_hits" := PList nil]>
          (<[py "kw_national_hits" := PList nil]> (raw a1)))) a1.

Definition reset_loop (s : store) (articles : list ref) : store :=
  fold_left (fun s r => upd s r (reset_fields (s r))) articles s.

(** The loop state of Layer 1: the store, [national_pass] and
    [nat_hits_total]. *)
Definition layer1_body (nat_pats : list (pystr * re))
    (st : store * list ref * nat) (r : ref) : store * list ref * nat :=
  let '(s, national_pass_, total) := st in
  let a := s r in
  let hay := _article_haystack a in
  let nat_hits := _match_keywords hay nat_pats in
  let national_pass_ := if nonempty nat_hits then national_pass_ ++ r :: nil else national_pass_ in
  (* For now, threat hits are blank, shortlisted false *)
  (upd s r (_write_layer1_fields a nat_hits nil false), national_pass_,
   (total + length nat_hits)%nat).

(** The loop state of Layer 2: the store, [threat_pass] and
    [thr_hits_total]. *)
Definition layer2_body (thr_pats : list (pystr * re))
    (st : store * list ref * nat) (r : ref) : store * list ref * nat :=
  let '(s, threat_pass_, total) := st in
  let a := s r in
  let hay := _article_haystack a in
  let thr_hits := _match_keywords hay thr_pats in
  let shortlisted_ := nonempty (kw_national_hits (kw a)) && nonempty thr_hits in
  let s' := upd s r (_write_layer1_fields a (kw_national_hits (kw a)) thr_hits shortlisted_) in
  (s', if shortlisted_ then threat_pass_ ++ r :: nil else threat_pass_,
   (total + length thr_hits)%nat).

Definition shortlist_articles_two_layer (s : store) (articles : list ref)
    (national_keywords threat_keywords : list pystr) : store * ShortlistResult :=
  let nat_pats := _compile_keyword_patterns national_keywords in
  let thr_pats := _compile_keyword_patterns threat_keywords in
  let s0 := reset_loop s articles in
  let '(s1, national_pass_, nat_hits_total) :=
    fold_left (layer1_body nat_pats) articles (s0, nil, O) in
  let '(s2, threat_pass_, thr_hits_total) :=
    fold_left (layer2_body thr_pats) national_pass_ (s1, nil, O) in
  (s2, {| articles_all := articles;
          national_pass := national_pass_;
          threat_pass := threat_pass_;
          national_total_hits := nat_hits_total;
          threat_total_hits := thr_hits_total |}).

End WithUnicode.
End keywords.

(** ** analysis_layers.py *)

Module analysis_layers.
Import Py Val Re models.

(** A [datetime.date] is its proleptic Gregorian ordinal, so that
    [(d1 - d2).days] is a difference of integers. *)
Definition date := Z.

(** What the module takes from [datetime]: the clock and two parsers
    ([None] where Python raises). *)
Record datelib := {
  (** [datetime.now(timezone.utc).date()] *)
  today_utc : date;
  (** [datetime.strptime(t, "%Y-%m-%d").date()] *)
  strptime_ymd : pystr -> option date;
  (** [datetime.fromisoformat(t).date()] *)
  fromisoformat_date : pystr -> option date
}.

(** *** Utilities *)

Section Utilities.
Variable U : ucd.
Variable D : datelib.

Definition _safe_text (s : option pystr) : pystr :=
  strip (replace_char 160 (py " ") (str_or s nil)).

Definition _normalize_ws (s : pystr) : pystr :=
  strip (Re.sub U false (pat "\s+") (py " ") (_safe_text (Some s))).

Definition _haystack (a : Article) : pystr :=
  _normalize_ws
    (join (py " ")
       (title (meta a) ::
        str_or (summary (meta a)) nil ::
        str_or (content_text (content a)) nil ::
        url (ident a) ::
        str_or (author (meta a)) nil :: nil)).

(** [s.replace("Z", "+00:00")]. *)
Definition replace_Z (s : pystr) : pystr := replace_char 90 (py "+00:00") s.

Definition _try_parse_iso_date (s : option pystr) : option date :=
  match s with
  | None | Some nil => None
  | Some s =>
      let t := strip s in
      match t with
      | nil => None
      | _ =>
          (* YYYY-MM-DD *)
          match Re.match_start U false (pat "^(\d{4})-(\d{2})-(\d{2})$") t with
          | Some _ => strptime_ymd D t
          | None =>
            (* ISO datetime, allow Z *)
            match fromisoformat_date D (replace_Z t) with
            | Some d => Some d
            | None =>
                (* Try prefix YYYY-MM-DD *)
                match Re.match_start U false (pat "^(\d{4}-\d{2}-\d{2})") t with
                | Some (_, rest) => strptime_ymd D (firstn (length t - length rest) t)
                | None => None
                end
            end
          end
      end
  end.

Definition _today_utc : date := today_utc D.

Open Scope float_scope.

Definition _clamp (x lo hi : float) : float := max2 lo (min2 hi x).

Definition _prepriority_bucket (v : option float) : pystr :=
  match v with
  | None => py "LOW"
  | Some x =>
      if 80 <=? x then py "CRITICAL"
      else if 60 <=? x then py "HIGH"
      else if 40 <=? x then py "MEDIUM"
      else py "LOW"
  end.

Close Scope float_scope.

End Utilities.
(** *** LAYER 2: Relevance + Evidence + Urgency + Keyword Intensity + PrePriority *)

(** Pakistan signal heuristics for L. *)
Definition _PAK_LOCATION_PAT : re :=
  pat "\b(Islamabad|Rawalpindi|Karachi|Lahore|Peshawar|Quetta|Multan|Faisalabad|Gwadar|Gilgit|Skardu|Muzaffarabad|Mirpur|Kashmir|Balochistan|Sindh|Punjab|Khyber\s+Pakhtunkhwa|KP|GB|AJK|FATA)\b".

Definition _PAK_SECURITY_PAT : re :=
  pat "\b(Pakistan\s+Army|Pak\s+Army|PAF|Pakistan\s+Air\s+Force|Pakistan\s+Navy|ISI|ISPR|DG\s+ISPR|FIA|IB\b|Intelligence\s+Bureau|CTD|Counter\s+Terrorism\s+Department|Rangers|Frontier\s+Corps|FC\b|NADRA|Police|Sindh\s+Police|Punjab\s+Police|KPK\s+Police|Balochistan\s+Police)\b".

(** Evidence heuristics. *)
Definition _QUOTE_ATTRIB_PAT : re :=
  pat "(\bsaid\b|\bstated\b|\btold\b|\baccording to\b|\badded\b)\s+[^.]{0,80}".

Definition _CITATION_PAT : re :=
  pat "\b(report|statement|press\s+release|briefing|dossier|white\s+paper|document|UN|United\s+Nations|FATF|IMF|World\s+Bank|court|police\s+report|investigation)\b".

Definition _NUMERIC_PAT : re := pat "(\b\d{1,4}\b|\b\d{1,3}(?:,\d{3})+\b)".

(** Named official / organization heuristic: titles and org suffixes. *)
Definition _NAMED_ENTITY_PAT : re :=
  pat "\b(Prime\s+Minister|President|Chief\s+Minister|Interior\s+Minister|Foreign\s+Minister|Army\s+Chief|COAS|DG\s+ISPR|spokesperson|commissioner|inspector|IG|DIG|Ministry|Ministries|Department|Court|High\s+Court|Supreme\s+Court|Parliament|Senate|Assembly|Police|Rangers|Army|Navy|Air\s+Force|FIA|NADRA|ISPR|UN|IMF|FATF|World\s+Bank)\b".

Definition _PLACE_WORD_PAT : re := pat "\b(city|district|province|village|tehsil)\b".

Definition _PAKISTAN_PAT : re := pat "\bPakistan\b".

(** [int(x)] for a float: truncation toward zero. Python raises on a NaN
    or an infinity, where this gives 0; the one use below applies it to a
    clamped count. *)
Definition int_trunc (x : float) : Z :=
  match Prim2SF x with
  | S754_finite sgn m e =>
      let mag := if (0 <=? e)%Z then (Zpos m * 2 ^ e)%Z else (Zpos m / 2 ^ (- e))%Z in
      if sgn then (- mag)%Z else mag
  | _ => 0%Z
  end.

Section Layer2.
Variable U : ucd.
Variable D : datelib.

Open Scope float_scope.

(** Explicit "Pakistan" mentions only (not PK/Pak etc.). *)
Definition _count_explicit_pakistan_mentions (text : pystr) : nat :=
  Re.findall_count U true _PAKISTAN_PAT text.

(** [list(a.kw_national_hits or []) or list(a.keywords_national_matched or [])]. *)
Definition kw_nat_of (a : Article) : list pystr :=
  match kw_national_hits (kw a) with
  | nil => keywords_national_matched (kw a)
  | l => l
  end.

Definition kw_thr_of (a : Article) : list pystr :=
  match kw_threat_hits (kw a) with
  | nil => keywords_threat_matched (kw a)
  | l => l
  end.

Definition is_pakistan (c : pystr) : bool := eqb_str (upper U (strip c)) (py "PAKISTAN").

Definition _compute_relevance (a : Article) : float :=
  let kw_nat := kw_nat_of a in
  let N := Nat.min (length kw_nat) 10 in
  let hay := _haystack U a in
  let P := Nat.min (_count_explicit_pakistan_mentions hay) 5 in
  let L := if Re.search U true _PAK_LOCATION_PAT hay || Re.search U true _PAK_SECURITY_PAT hay
           then 1%nat else 0%nat in
  (* Source country boost *)
  let S := if is_pakistan (country (ident a)) then 10%nat else 0%nat in
  min2 100 (10 * float_of_nat N + 8 * float_of_nat P + 25 * float_of_nat L + float_of_nat S).

Definition has_quote_mark (hay : pystr) : bool :=
  contains hay (34%N :: nil) || contains hay (8220%N :: nil)
  || contains hay (8217%N :: nil) || contains hay (8221%N :: nil).

Definition _evidence_points (a : Article) : Z :=
  let hay := _haystack U a in
  let pts := 0%nat in
  (* +2 named official or organization *)
  let pts := if Re.search U true _NAMED_ENTITY_PAT hay then (pts + 2)%nat else pts in
  (* +2 numeric data present (casualties, dates, counts) *)
  let pts := if Re.search U true _NUMERIC_PAT hay then (pts + 2)%nat else pts in
  (* +2 specific location mentioned *)
  let pts := if Re.search U true _PAK_LOCATION_PAT hay || Re.search U true _PLACE_WORD_PAT hay
             then (pts + 2)%nat else pts in
  (* +2 cited report/document/statement *)
  let pts := if Re.search U true _CITATION_PAT hay then (pts + 2)%nat else pts in
  (* +2 direct quote with speaker attribution *)
  let pts := if has_quote_mark hay && Re.search U true _QUOTE_ATTRIB_PAT hay
             then (pts + 2)%nat else pts in
  int_trunc (_clamp (float_of_nat pts) 0 10).

Definition _evidence_bucket_and_numeric (points : Z) : pystr * float :=
  if (points <=? 3)%Z then (py "LOW", 25)
  else if (points <=? 7)%Z then (py "MED", 60)
  else (py "HIGH", 90).

(** Urgency heuristic based on recency and threat-ish keyword hits. *)
Definition _compute_urgency (a : Article) : float :=
  let today := _today_utc D in
  let pub := _try_parse_iso_date U D (published_at (meta a)) in
  let age_days :=
    match pub with
    | Some p => Z.abs (today - p)
    | None => 999%Z
    end in
  (* Recency score: 0..60 *)
  let rec :=
    if (age_days <=? 0)%Z then 60
    else if (age_days <=? 1)%Z then 55
    else if (age_days <=? 2)%Z then 50
    else if (age_days <=? 3)%Z then 45
    else if (age_days <=? 7)%Z then 35
    else if (age_days <=? 14)%Z then 25
    else if (age_days <=? 30)%Z then 15
    else 5 in
  (* Threat keyword boost: 0..40 *)
  let kw_thr := kw_thr_of a in
  let thr := Nat.min (length kw_thr) 10 in
  let thr_boost := float_of_nat thr * 4 in
  _clamp (rec + thr_boost) 0 100.

(** Keyword intensity is how saturated the article is with hits. *)
Definition _compute_keyword_intensity (a : Article) : float :=
  let kw_nat := kw_nat_of a in
  let kw_thr := kw_thr_of a in
  let total := (length kw_nat + length kw_thr)%nat in
  _clamp (10 * float_of_nat (Nat.min total 10)) 0 100.

(** The body of the loop of [compute_layer2_scores]. *)
Definition layer2_of (a : Article) : Layer2 :=
  let R := _compute_relevance a in
  let pts := _evidence_points a in
  let '(E_bucket, E_num) := _evidence_bucket_and_numeric pts in
  let Uv := _compute_urgency a in
  let K := _compute_keyword_intensity a in
  (* Pre = 0.45*R + 0.25*U + 0.20*E + 0.10*K *)
  let Pre := 0.45 * R + 0.25 * Uv + 0.20 * E_num + 0.10 * K in
  let prepriority_score_ := _clamp Pre 0 100 in
  {| relevance_score := Some (_clamp R 0 100);
     evidence_strength := Some E_bucket;
     evidence_numeric := Some E_num;
     urgency_score := Some (_clamp Uv 0 100);
     keyword_intensity := Some (_clamp K 0 100);
     prepriority_score := Some prepriority_score_;
     prepriority_bucket := Some (_prepriority_bucket (Some prepriority_score_)) |}.

(** Mutates articles with Layer 2 scores. *)
Definition compute_layer2_scores (s : store) (articles : list ref) : store :=
  fold_left (fun s r => upd s r (set_layer2 (layer2_of (s r)) (s r))) articles s.

Close Scope float_scope.

End Layer2.
(** *** A concrete [datelib] for ASCII dates *)

Definition is_leap (y : Z) : bool :=
  ((y mod 4 =? 0) && (negb (y mod 100 =? 0) || (y mod 400 =? 0)))%Z.

Definition days_in_month (y m : Z) : Z :=
  if (m =? 2)%Z then (if is_leap y then 29 else 28)
  else if ((m =? 4) || (m =? 6) || (m =? 9) || (m =? 11))%Z then 30
  else 31.

Definition days_before_year (y : Z) : Z :=
  let y1 := y - 1 in 365 * y1 + y1 / 4 - y1 / 100 + y1 / 400.

Fixpoint days_before_month (y : Z) (m : nat) : Z :=
  match m with
  | O => 0
  | S m' => days_before_month y m' + days_in_month y (Z.of_nat m)
  end.

(** [date(y, m, d).toordinal()], or [None] for a date that does not exist. *)
Definition ymd_to_ordinal (y m d : Z) : option date :=
  if ((1 <=? y) && (y <=? 9999) && (1 <=? m) && (m <=? 12)
      && (1 <=? d) && (d <=? days_in_month y m))%Z
  then Some (days_before_year y + days_before_month y (Z.to_nat m - 1) + d)
  else None.

Definition ascii_digits_val (s : pystr) : option Z :=
  if forallb is_ascii_digit s
  then Some (fold_left (fun acc c => 10 * acc + Z.of_N (c - 48)) s 0)
  else None.

(** [strptime(t, "%Y-%m-%d")] on a text of the shape dddd-dd-dd. *)
Definition strptime_ymd_ascii (t : pystr) : option date :=
  match t with
  | y1 :: y2 :: y3 :: y4 :: 45%N :: m1 :: m2 :: 45%N :: d1 :: d2 :: nil =>
      match ascii_digits_val (y1 :: y2 :: y3 :: y4 :: nil),
            ascii_digits_val (m1 :: m2 :: nil), ascii_digits_val (d1 :: d2 :: nil) with
      | Some y, Some m, Some d => ymd_to_ordinal y m d
      | _, _, _ => None
      end
  | _ => None
  end.

(** A runtime whose clock reads [today] and whose [fromisoformat] is only
    ever given date-only text. *)
Definition dateonly_datelib (today : date) : datelib := {|
  today_utc := today;
  strptime_ymd := strptime_ymd_ascii;
  fromisoformat_date := strptime_ymd_ascii
|}.

(** *** LAYER 3: LLM scoring *)

(** What one call of the model gives for an article: the steps from
    building the prompt to reading the completion text either raise (the
    text of the exception) or deliver the text. *)
Inductive llm_reply :=
| LlmRaises (what : pystr)
| LlmText (text : pystr).

(** What the module takes from the outside for Layer 3. *)
Record llm_env := {
  (** [os.path.isfile(model_path)] *)
  isfile : pystr -> bool;
  (** [_load_llama] returns a model ([None]) or raises (its exception) *)
  load_llama_raises : option pystr;
  (** prompt, call and completion text for one article *)
  llm_call : Article -> llm_reply;
  (** [float(s)] for a string, [None] where it raises *)
  float_of_str : pystr -> option float;
  (** [str(v)] for floats, lists and dictionaries *)
  str_other : pyval -> pystr
}.

Open Scope float_scope.

Definition _threat_level_from_score (t : float) : pystr :=
  if 75 <=? t then py "CRITICAL"
  else if 50 <=? t then py "HIGH"
  else if 25 <=? t then py "MED"
  else py "LOW".

Close Scope float_scope.

Section Layer3.
Variable U : ucd.
Variable E : llm_env.

Open Scope float_scope.

Definition _coerce_float (v : pyval) (default : float) : float :=
  match v with
  | PFloat f => f
  | PInt z => match float_of_Z z with Some f => f | None => default end
  | PBool b => if b then 1 else 0
  | PStr s => match float_of_str E s with Some f => f | None => default end
  | _ => default
  end.

Definition _clean_vector (v : pystr) : pystr :=
  let v := upper U (strip v) in
  let allowed := py "MILITARY" :: py "TERROR" :: py "CYBER" :: py "DIPLO" :: py "ECON"
                 :: py "INTERNAL" :: py "OTHER" :: nil in
  if existsb (eqb_str v) allowed then v else py "OTHER".

(** Attempts to pull the first JSON object from an LLM completion. *)
Definition _extract_json_object (text : pystr) : option (gmap pystr pyval) :=
  match text with
  | nil => None
  | _ =>
      let t := strip text in
      (* Quick path if whole thing is JSON *)
      match Json.loads t with
      | Some (PDict obj) => Some obj
      | _ =>
          (* Find first {...} block *)
          match Re.first_match U false (pat "\{[\s\S]*\}") t with
          | None => None
          | Some blob =>
              match Json.loads blob with
              | Some (PDict obj) => Some obj
              | _ => None
              end
          end
      end
  end.

(** [a.threat_level or d] and the like. *)
Definition opt_str_or (x : option pystr) (d : pystr) : option pystr := Some (str_or x d).

(** The assignments shared by the two [except] branches and the parse
    failure; they differ in how [threat_score] is defaulted. *)
Definition keep_or_default (score : float) (note : pystr) (a : Article) : Article :=
  let l3 := layer3 a in
  append_note note
    (set_layer3
       {| threat_score := Some score;
          threat_level :=
            opt_str_or (threat_level l3) (_threat_level_from_score (float_or (Some score) 0));
          threat_vector := opt_str_or (threat_vector l3) (py "OTHER");
          one_liner_threat := opt_str_or (one_liner_threat l3) nil;
          reasons := reasons l3 |} a).

(** The outcome of the loop body for one article: the article after the
    assignments, or an exception that leaves the loop. *)
Inductive step_result :=
| Stored (a : Article)
| Raised (what : pystr).

Definition reasons_of (rs : pyval) : list pystr :=
  let rs := match rs with PList l => l | _ => nil end in
  let reasons :=
    firstn 6 (List.filter (fun x => match x with nil => false | _ => true end)
                          (map (fun x => strip (py_str (str_other E) x)) rs)) in
  if (4 <? length reasons)%nat then firstn 4 reasons else reasons.

(** The assignments from a parsed object. *)
Definition score_from_object (obj : gmap pystr pyval) (a : Article) : step_result :=
  let t := _clamp (_coerce_float (get obj "threat_score" (PFloat 0)) 0) 0 100 in
  let vec :=
    _clean_vector
      (py_str (str_other E) (or_else (get obj "threat_vector" (PStr nil)) (PStr (py "OTHER")))) in
  match or_else (get obj "one_liner_threat" (PStr nil)) (PStr nil) with
  | PStr one_text =>
      let one := _safe_text (Some one_text) in
      let reasons_ := reasons_of (get obj "reasons" (PList nil)) in
      Stored (set_layer3
                {| threat_score := Some t;
                   threat_level := Some (_threat_level_from_score t);
                   threat_vector := Some vec;
                   one_liner_threat := Some one;
                   reasons := reasons_ |} a)
  | _ =>
      (* [_safe_text] calls [.replace] on a value that is no string *)
      Raised (py "AttributeError")
  end.

(** [if not obj]: no object, or an empty one. *)
Definition no_object (obj : option (gmap pystr pyval)) : bool :=
  match obj with
  | None => true
  | Some d => bool_decide (d = ∅)
  end.

(** The body of the scoring loop. *)
Definition layer3_step (a : Article) : step_result :=
  match llm_call E a with
  | LlmRaises what =>
      Stored (keep_or_default (float_or (threat_score (layer3 a)) 0)
                (py "LLM_ERROR: " ++ what) a)
  | LlmText text =>
      let obj := _extract_json_object text in
      if no_object obj then
        Stored (keep_or_default
                  (match threat_score (layer3 a) with Some t => t | None => 0 end)
                  (py "LLM_PARSE_ERROR: could not extract JSON") a)
      else
        score_from_object (match obj with Some d => d | None => ∅ end) a
  end.

(** The scoring loop: the store when it ends, and the exception that
    ended it early, if any. *)
Fixpoint layer3_loop (s : store) (articles : list ref) : store * option pystr :=
  match articles with
  | nil => (s, None)
  | r :: rest =>
      match layer3_step (s r) with
      | Stored a' => layer3_loop (upd s r a') rest
      | Raised what => (s, Some what)
      end
  end.

(** Runs LLM scoring in-place on the given list of articles. *)
Definition run_layer3_llm_scoring (s : store) (articles : list ref) (model_path : pystr)
    : store * option pystr :=
  let model_path := strip model_path in
  if negb (match model_path with nil => false | _ => true end) || negb (isfile E model_path)
  then (s, Some (py "RuntimeError: Model file not found: " ++ model_path))
  else
    match load_llama_raises E with
    | Some what => (s, Some what)
    | None => layer3_loop s articles
    end.

(** *** FINAL RISK INDEX *)

(** RiskIndex = 0.45*T + 0.35*R + 0.10*U + 0.10*E *)
Definition risk_of (a : Article) : float :=
  let T := float_or (threat_score (layer3 a)) 0 in
  let R := float_or (relevance_score (layer2 a)) 0 in
  let Uv := float_or (urgency_score (layer2 a)) 20 in
  let Ev := float_or (evidence_numeric (layer2 a)) 25 in
  let risk := 0.45 * T + 0.35 * R + 0.10 * Uv + 0.10 * Ev in
  _clamp risk 0 100.

Definition compute_risk_index (s : store) (articles : list ref) : store :=
  fold_left (fun s r => upd s r (set_risk_index (Some (risk_of (s r))) (s r))) articles s.

Close Scope float_scope.

End Layer3.
End analysis_layers.

(** ** fetcher.py *)

Module fetcher.
Import Py Val Re models.

Definition bytes := list N.
Definition date := analysis_layers.date.

Record Endpoint := {
  ep_type : pystr;
  ep_url : pystr;
  ep_note : pystr;
  ep_enabled : bool
}.

Record Source := {
  src_country : pystr;
  src_name : pystr;
  src_endpoints : list Endpoint;
  src_enabled : bool
}.

Record FetchResult := {
  ok : bool;
  error : option pystr;
  content_type : pystr
}.

Record RSSItem := {
  rss_url : pystr;
  rss_title : pystr;
  rss_summary : pystr;
  rss_author : pystr;
  rss_published_at : option pystr
}.

(** One call of [SmartHTTP.get]: the url and what is expected. *)
Definition request := (pystr * pystr)%type.

(** What discovery takes from the outside: the network (an answer may
    depend on the requests made before), the HTML and XML readers built on
    BeautifulSoup and feedparser, [urlparse], [datetime], the clock, the
    codec and [hashlib]. [None] stands for a raised exception. *)
Record env := {
  http_get : list request -> request -> FetchResult * option bytes;
  parse_rss_items : bytes -> pystr -> list RSSItem;
  discover_feed_links_from_directory_page : bytes -> pystr -> list pystr;
  discover_from_html_listing : bytes -> pystr -> list pystr;
  parse_sitemap_index_urls : bytes -> pystr -> list pystr;
  parse_sitemap_urls : bytes -> pystr -> list pystr;
  (** the date found in a fetched page by [sniff_published_at_fast] *)
  sniff_date_in_page : FetchResult -> bytes -> option pystr;
  (** [datetime.now(timezone.utc).isoformat()] at the n-th reading *)
  iso_now_at : nat -> pystr;
  (** [fromisoformat(s)] taken to UTC, then [.date()] *)
  fromisoformat_utc_date : pystr -> option date;
  (** [fromisoformat(s).date()] *)
  fromisoformat_date : pystr -> option date;
  (** [d.isoformat()] *)
  date_isoformat : date -> pystr;
  (** [urlparse(u).netloc] and [urlparse(u).path] *)
  urlparse_netloc : pystr -> option pystr;
  urlparse_path : pystr -> option pystr;
  (** [b.decode("utf-8", errors="ignore")] *)
  utf8_decode_ignore : bytes -> pystr;
  (** [hashlib.sha256(b).hexdigest()] *)
  sha256_hexdigest : bytes -> pystr
}.

(** *** Config / heuristics *)

Definition BAD_URL_PARTS : list pystr :=
  map py ("/tag/" :: "/tags/" :: "/topics/" :: "/topic/" :: "/category/" :: "/categories/"
          :: "/author/" :: "/authors/"
          :: "/privacy" :: "/terms" :: "/contact" :: "/about"
          :: "/login" :: "/signin" :: "/signup" :: "/register"
          :: "/epaper" :: "/e-paper"
          :: "javascript:" :: "mailto:" :: nil)%string.

Definition ARTICLE_URL_RE : re :=
  pat "(/\d{4}/\d{2}/\d{2}/|/news/|/article|/story|/stories|/latest/|/detail/|/content/|/post/|/posts/|/world/|/pakistan/|/international/|/business/|/politics/|/sports/|/entertainment/|/amp/|/amp$|/(?:\d{5,})(?:[-/]|$))".

Definition LOOSE_ARTICLE_SIGNAL_RE : re :=
  pat "([a-z0-9]{8,}-[a-z0-9-]{6,}|/(\d{5,})(-|/|$))".

(** *** Fetch modes *)

Definition FETCH_MODE_ANY : pystr := py "ANY".
Definition FETCH_MODE_LATEST_N : pystr := py "LATEST_N".
Definition FETCH_MODE_ON_DATE : pystr := py "ON_DATE".
Definition FETCH_MODE_DATE_RANGE : pystr := py "DATE_RANGE".

(** [s.encode("utf-8", errors="ignore")]: a surrogate cannot be encoded
    and is left out. *)
Definition utf8_char (c : N) : bytes :=
  (if c <? 128 then c :: nil
   else if c <? 2048 then (192 + c / 64) :: (128 + c mod 64) :: nil
   else if (55296 <=? c) && (c <=? 57343) then nil
   else if c <? 65536 then
     (224 + c / 4096) :: (128 + (c / 64) mod 64) :: (128 + c mod 64) :: nil
   else (240 + c / 262144) :: (128 + (c / 4096) mod 64) :: (128 + (c / 64) mod 64)
        :: (128 + c mod 64) :: nil)%N.

Definition utf8_encode_ignore (s : pystr) : bytes := flat_map utf8_char s.

Section Utilities.
Variable U : ucd.
Variable W : env.

Definition _safe_slug (s : pystr) : pystr :=
  let s := lower U (strip s) in
  let s := Re.sub U false (pat "[^a-z0-9]+") (py "_") s in
  let s := strip_char 95 (Re.sub U false (pat "_+") (py "_") s) in
  match s with
  | nil => py "source"
  | _ => firstn 80 s
  end.

Definition normalize_url (u : pystr) : pystr := before_char 35 (strip u).

Definition _same_domain (base link : pystr) : bool :=
  match urlparse_netloc W base, urlparse_netloc W link with
  | Some b, Some l =>
      match l with
      | nil => true
      | _ => eqb_str (lower U b) (lower U l)
      end
  | _, _ => false
  end.

(** [s.count("/")]. *)
Definition count_slash (s : pystr) : nat := length (List.filter (fun c => (c =? 47)%N) s).

Definition is_probably_article_url (u : pystr) (base_url : option pystr)
    (allow_unknown : bool) : bool :=
  let u := normalize_url u in
  if negb (startswith u (py "http")) then false
  else
    let ul := lower U u in
    if existsb (fun p => contains ul p) BAD_URL_PARTS then false
    else if contains ul (py "/video/") || contains ul (py "/videos/")
            || contains ul (py "/watch/") || contains ul (py "/player/") then false
    else if Re.search U true ARTICLE_URL_RE u then true
    else if negb allow_unknown then false
    else if match base_url with
            | Some (c :: b) => negb (_same_domain (c :: b) u)
            | _ => false
            end then false
    else
      match urlparse_path W u with
      | None => false
      | Some p0 =>
          let p := match p0 with nil => py "/" | _ => p0 end in
          if (count_slash p <? 2)%nat then false
          else Re.search U true LOOSE_ARTICLE_SIGNAL_RE p
      end.

Definition _article_id (source_slug_ url_ : pystr) (published_at_ : option pystr) : pystr :=
  firstn 24
    (sha256_hexdigest W
       (utf8_encode_ignore (source_slug_ ++ py "|" ++ url_ ++ py "|" ++ str_or published_at_ nil))).

Definition _ctype_is_xmlish (ctype : pystr) : bool :=
  let cl := lower U ctype in
  contains cl (py "xml") || contains cl (py "rss") || contains cl (py "atom").

Definition _sniff_text (b : option bytes) (n : nat) : pystr :=
  match b with
  | None | Some nil => nil
  | Some b =>
      let s := utf8_decode_ignore W (firstn n b) in
      let s := strip (replace_char 10 (py " ") (replace_char 13 (py " ") s)) in
      firstn n (Re.sub U false (pat "\s+") (py " ") s)
  end.

Definition _looks_like_xml (b : option bytes) : bool :=
  let s := lower U (_sniff_text b 200) in
  match s with
  | nil => false
  | _ =>
      startswith s (py "<?xml") || startswith s (py "<rss") || startswith s (py "<feed")
      || startswith s (py "<urlset") || startswith s (py "<sitemapindex")
  end.

(** *** Date filtering utilities *)

Definition _iso_to_date (iso_str : option pystr) : option date :=
  match iso_str with
  | None | Some nil => None
  | Some iso =>
      let s := strip iso in
      match s with
      | nil => None
      | _ =>
          match fromisoformat_utc_date W (analysis_layers.replace_Z s) with
          | Some d => Some d
          | None =>
              match Re.match_start U false (pat "^(\d{4}-\d{2}-\d{2})") s with
              | Some (_, rest) => fromisoformat_date W (firstn (length s - length rest) s)
              | None => None
              end
          end
      end
  end.

Definition _in_date_range (d : option date) (start end_ : option date) : bool :=
  match d with
  | None => false
  | Some d =>
      if match start with Some st => (d <? st)%Z | None => false end then false
      else if match end_ with Some en => (en <? d)%Z | None => false end then false
      else true
  end.

End Utilities.
(** *** Core: discovery / fetch *)

(** The state discovery threads through its calls: the requests made so
    far and the number of clock readings. *)
Record world := {
  trace : list request;
  now_reads : nat
}.

Definition M (A : Type) : Type := world -> A * world.

Definition ret {A : Type} (x : A) : M A := fun w => (x, w).

Definition bind {A B : Type} (c : M A) (k : A -> M B) : M B :=
  fun w => let '(x, w') := c w in k x w'.

Notation "'do' x <- c ; k" := (bind c (fun x => k))
  (at level 10, x pattern, c at level 100, k at level 200).

(** [str(o)] for an optional string inside an f-string. *)
Definition fmt_opt (o : option pystr) : pystr :=
  match o with Some s => s | None => py "None" end.

Definition fmt_nat (n : nat) : pystr := str_of_Z (Z.of_nat n).

(** What the endpoint loop assigns. *)
Record disc := {
  rss_items : list RSSItem;
  url_candidates : list pystr;
  endpoint_used : option pystr;
  discovery_method : pystr;
  log : list pystr
}.

Definition with_log (line : pystr) (st : disc) : disc :=
  {| rss_items := rss_items st; url_candidates := url_candidates st;
     endpoint_used := endpoint_used st; discovery_method := discovery_method st;
     log := log st ++ line :: nil |}.

Definition with_rss (items : list RSSItem) (st : disc) : disc :=
  {| rss_items := items; url_candidates := url_candidates st;
     endpoint_used := endpoint_used st; discovery_method := discovery_method st;
     log := log st |}.

Definition with_urls (urls : list pystr) (st : disc) : disc :=
  {| rss_items := rss_items st; url_candidates := urls;
     endpoint_used := endpoint_used st; discovery_method := discovery_method st;
     log := log st |}.

Definition with_endpoint (u method : pystr) (st : disc) : disc :=
  {| rss_items := rss_items st; url_candidates := url_candidates st;
     endpoint_used := Some u; discovery_method := method;
     log := log st |}.

(** [not data] for the body of a response. *)
Definition no_data (data : option bytes) : bool :=
  match data with Some (_ :: _) => false | _ => true end.

Definition body (data : option bytes) : bytes :=
  match data with Some b => b | None => nil end.

(** [data.lower()] on bytes: ASCII letters only. *)
Definition bytes_lower (b : bytes) : bytes := map ascii_to_lower b.

Section Discovery.
Variable U : ucd.
Variable W : env.

(** [http.get(url, allow_redirects=True, expect=...)]. *)
Definition get (url_ expect : pystr) : M (FetchResult * option bytes) :=
  fun w =>
    (http_get W (trace w) (url_, expect),
     {| trace := trace w ++ (url_, expect) :: nil; now_reads := now_reads w |}).

Definition _iso_now : M pystr :=
  fun w => (iso_now_at W (now_reads w), {| trace := trace w; now_reads := S (now_reads w) |}).

Definition push_url (url_candidates_ : list pystr) (u : pystr) : list pystr :=
  let u := normalize_url u in
  if match u with nil => true | _ => negb (startswith u (py "http")) end then url_candidates_
  else if existsb (eqb_str u) url_candidates_ then url_candidates_
  else url_candidates_ ++ u :: nil.

Definition push_rss_item (rss_items_ : list RSSItem) (it : RSSItem) : list RSSItem :=
  if negb (startswith (rss_url it) (py "http")) then rss_items_
  else if forallb (fun x => negb (eqb_str (rss_url x) (rss_url it))) rss_items_
       then rss_items_ ++ it :: nil
       else rss_items_.

(** [for it in items: push_rss_item(it); if len(rss_items) >= max_candidates: break]. *)
Fixpoint push_rss_until (max_candidates : Z) (items : list RSSItem) (acc : list RSSItem)
    : list RSSItem :=
  match items with
  | nil => acc
  | it :: rest =>
      let acc' := push_rss_item acc it in
      if (max_candidates <=? Z.of_nat (length acc'))%Z then acc'
      else push_rss_until max_candidates rest acc'
  end.

(** The same loop over urls, each kept only when it looks like an article. *)
Fixpoint push_urls_until (max_candidates : Z) (base_url : pystr) (allow_unknown : bool)
    (urls : list pystr) (acc : list pystr) : list pystr :=
  match urls with
  | nil => acc
  | u :: rest =>
      if is_probably_article_url U W u (Some base_url) allow_unknown then
        let acc' := push_url acc u in
        if (max_candidates <=? Z.of_nat (length acc'))%Z then acc'
        else push_urls_until max_candidates base_url allow_unknown rest acc'
      else push_urls_until max_candidates base_url allow_unknown rest acc
  end.

(** [sorted(feed_links, key=feed_score, reverse=True)]: stable, greatest
    key first. *)
Definition feed_score (ep_url_ u : pystr) : Z * Z * Z :=
  let same := if _same_domain U W ep_url_ u then 1 else 0 in
  let low := lower U u in
  let has_rss := if contains low (py "rss") || contains low (py "feed") || contains low (py "atom")
                 then 1 else 0 in
  (same, has_rss, - Z.of_nat (length u)).

Definition score_ltb (x y : Z * Z * Z) : bool :=
  let '(a1, b1, c1) := x in
  let '(a2, b2, c2) := y in
  ((a1 <? a2) || (a1 =? a2) && ((b1 <? b2) || (b1 =? b2) && (c1 <? c2)))%Z.

Fixpoint insert_desc {A : Type} (ltb : A -> A -> bool) (x : A) (l : list A) : list A :=
  match l with
  | nil => x :: nil
  | y :: l' => if ltb y x then x :: y :: l' else y :: insert_desc ltb x l'
  end.

Definition sort_desc {A : Type} (ltb : A -> A -> bool) (l : list A) : list A :=
  fold_left (fun acc x => insert_desc ltb x acc) l nil.

(** Probing the feed candidates of a directory page: the first one that
    answers with a non-empty feed is picked. *)
Fixpoint probe_feeds (max_candidates : Z) (feeds : list pystr) (acc : list RSSItem)
    : M (option pystr * list RSSItem) :=
  match feeds with
  | nil => ret (None, acc)
  | feed_url :: rest =>
      do (fr2, data2) <- get feed_url (py "xml");
      if ok fr2 && negb (no_data data2)
         && (_ctype_is_xmlish U (content_type fr2) || _looks_like_xml U W data2)
      then
        match parse_rss_items W (body data2) feed_url with
        | nil => probe_feeds max_candidates rest acc
        | parsed_items => ret (Some feed_url, push_rss_until max_candidates parsed_items acc)
        end
      else probe_feeds max_candidates rest acc
  end.

(** The child sitemaps of a sitemap index, until there are enough urls. *)
Fixpoint read_child_sitemaps (max_candidates : Z) (ep_url_ : pystr) (allow_unknown : bool)
    (children : list pystr) (acc : list pystr) : M (list pystr) :=
  match children with
  | nil => ret acc
  | sm :: rest =>
      do (fr2, data2) <- get sm (py "xml");
      if negb (ok fr2) || no_data data2
      then read_child_sitemaps max_candidates ep_url_ allow_unknown rest acc
      else
        let urls := parse_sitemap_urls W (body data2) ep_url_ in
        let acc' := push_urls_until max_candidates ep_url_ allow_unknown urls acc in
        if (max_candidates <=? Z.of_nat (length acc'))%Z then ret acc'
        else read_child_sitemaps max_candidates ep_url_ allow_unknown rest acc'
  end.

Section Run.
(** The source and the keyword arguments of one call. *)
Variable source : Source.
Variable allow_unknown_article_urls : bool.
Variable max_candidates : Z.

(** The prefix of every log line. *)
Definition tag : pystr :=
  py "[" ++ src_country source ++ py " | " ++ src_name source ++ py "] ".

(** The loop over the enabled endpoints: the first endpoint that yields
    candidates ends it. *)
Fixpoint endpoints_loop (eps : list Endpoint) (st : disc) : M disc :=
  match eps with
  | nil => ret st
  | ep :: rest =>
      let ep_type_ := upper U (strip (ep_type ep)) in
      let ep_url_ := strip (ep_url ep) in
      match ep_url_ with
      | nil => endpoints_loop rest st
      | _ =>
          if eqb_str ep_type_ (py "RSS") then
            let st := with_endpoint ep_url_ (py "rss") st in
            do (fr, data) <- get ep_url_ (py "xml");
            if negb (ok fr) || no_data data then
              endpoints_loop rest
                (with_log (tag ++ py "RSS fetch failed: " ++ ep_url_ ++ py " err="
                           ++ fmt_opt (error fr)) st)
            else
              let items := parse_rss_items W (body data) ep_url_ in
              let st := with_log (tag ++ py "RSS parsed: " ++ fmt_nat (length items)
                                  ++ py " entries from " ++ ep_url_) st in
              let st := with_rss (push_rss_until max_candidates items (rss_items st)) st in
              match rss_items st with
              | nil => endpoints_loop rest st
              | _ => ret st
              end
          else if eqb_str ep_type_ (py "FEED_DIRECTORY") then
            let st := with_endpoint ep_url_ (py "feed_directory") st in
            do (fr, data) <- get ep_url_ (py "any");
            if negb (ok fr) || no_data data then
              endpoints_loop rest
                (with_log (tag ++ py "FEED_DIRECTORY fetch failed: " ++ ep_url_ ++ py " err="
                           ++ fmt_opt (error fr)) st)
            else
              let feed_links := discover_feed_links_from_directory_page W (body data) ep_url_ in
              let st := with_log (tag ++ py "FEED_DIRECTORY found " ++ fmt_nat (length feed_links)
                                  ++ py " feed candidates") st in
              let feed_links_sorted :=
                sort_desc (fun u v => score_ltb (feed_score ep_url_ u) (feed_score ep_url_ v))
                          feed_links in
              do (picked, items) <-
                probe_feeds max_candidates (firstn 15 feed_links_sorted) (rss_items st);
              let st := with_rss items st in
              match picked with
              | Some feed_url =>
                  ret (with_log (tag ++ py "FEED_DIRECTORY picked feed: " ++ feed_url
                                 ++ py " items=" ++ fmt_nat (length (rss_items st))) st)
              | None =>
                  endpoints_loop rest
                    (with_log (tag ++ py "FEED_DIRECTORY could not validate any feed.") st)
              end
          else if eqb_str ep_type_ (py "HTML_LISTING") then
            let st := with_endpoint ep_url_ (py "html_listing") st in
            do (fr, data) <- get ep_url_ (py "any");
            if negb (ok fr) || no_data data then
              endpoints_loop rest
                (with_log (tag ++ py "HTML_LISTING fetch failed: " ++ ep_url_ ++ py " err="
                           ++ fmt_opt (error fr)) st)
            else
              let urls := discover_from_html_listing W (body data) ep_url_ in
              let st := with_log (tag ++ py "HTML_LISTING discovered " ++ fmt_nat (length urls)
                                  ++ py " urls") st in
              let st := with_urls (push_urls_until max_candidates ep_url_
                                     allow_unknown_article_urls urls (url_candidates st)) st in
              match url_candidates st with
              | nil => endpoints_loop rest st
              | _ => ret st
              end
          else if eqb_str ep_type_ (py "SITEMAP_INDEX") then
            let st := with_endpoint ep_url_ (py "sitemap") st in
            do (fr, data) <- get ep_url_ (py "xml");
            if negb (ok fr) || no_data data then
              endpoints_loop rest
                (with_log (tag ++ py "SITEMAP_INDEX fetch failed: " ++ ep_url_ ++ py " err="
                           ++ fmt_opt (error fr)) st)
            else
              do st <-
                (if contains (bytes_lower (body data)) (py "<sitemapindex") then
                   let child_sitemaps := parse_sitemap_index_urls W (body data) ep_url_ in
                   let st := with_log (tag ++ py "Sitemap index has "
                                       ++ fmt_nat (length child_sitemaps)
                                       ++ py " child sitemaps") st in
                   do urls <- read_child_sitemaps max_candidates ep_url_
                                allow_unknown_article_urls (firstn 30 child_sitemaps)
                                (url_candidates st);
                   ret (with_urls urls st)
                 else
                   let urls := parse_sitemap_urls W (body data) ep_url_ in
                   let st := with_log (tag ++ py "Sitemap urlset has " ++ fmt_nat (length urls)
                                       ++ py " urls") st in
                   ret (with_urls (push_urls_until max_candidates ep_url_
                                     allow_unknown_article_urls urls (url_candidates st)) st));
              match url_candidates st with
              | nil => endpoints_loop rest st
              | _ => ret st
              end
          else
            endpoints_loop rest
              (with_log (tag ++ py "Unknown endpoint type: " ++ ep_type_ ++ py " url=" ++ ep_url_)
                        (with_endpoint ep_url_ (discovery_method st) st))
      end
  end.

Variable source_slug_ : pystr.

(** [s or None]. *)
Definition or_none (s : pystr) : option pystr :=
  match s with nil => None | _ => Some s end.

(** The local function [make_article]; the fields it does not name take
    the defaults of the dataclass. *)
Definition make_article (st : disc) (url_ title_ author_ summary_ : pystr)
    (published_at_ : option pystr) (extraction_method_ : pystr)
    (raw_extra : gmap pystr pyval) : M Article :=
  let url2 := normalize_url url_ in
  let pub := published_at_ in
  let aid := _article_id W source_slug_ url2 pub in
  do now <- _iso_now;
  ret {|
    ident := {| id := aid; country := src_country source; source_name := src_name source;
                source_slug := source_slug_; url := url2 |};
    meta := {| title := match title_ with nil => url2 | _ => title_ end;
               published_at := pub; author := or_none author_; summary := or_none summary_ |};
    content := {| content_text := None; content_length := 0;
                  extraction_method := extraction_method_; extraction_notes := nil |};
    run := {| run_id := None; run_created_at := None; fetched_at := None |};
    kw := {| keywords_matched := nil; keywords_national_matched := nil;
             keywords_threat_matched := nil; national_relevant := None;
             threat_relevant := None; shortlisted := None;
             kw_national_hits := nil; kw_threat_hits := nil |};
    layer2 := {| relevance_score := None; evidence_strength := None; evidence_numeric := None;
                 urgency_score := None; keyword_intensity := None; prepriority_score := None;
                 prepriority_bucket := None |};
    layer3 := {| threat_score := None; threat_level := None; threat_vector := None;
                 one_liner_threat := None; reasons := nil |};
    risk_index := None;
    legacy := {| truth_score := None; truth_label := None; truth_reasons := nil;
                 threat_factors := nil |};
    raw := raw_extra ∪
           (<[py "fetched_at" := PStr now]>
              (<[py "endpoint_used" := of_opt_str (endpoint_used st)]>
                 (<[py "discovery_method" := PStr (discovery_method st)]> ∅)))
  |}.

(** The articles of the feed items, one per url, until there are enough. *)
Fixpoint articles_of_rss (st : disc) (its : list RSSItem) (seen_urls : list pystr)
    (items : list Article) : M (list Article) :=
  match its with
  | nil => ret items
  | it :: rest =>
      if existsb (eqb_str (rss_url it)) seen_urls then articles_of_rss st rest seen_urls items
      else
        do a <- make_article st (rss_url it) (rss_title it) (rss_author it) (rss_summary it)
                  (rss_published_at it) (py "rss")
                  {[ py "rss" := PDict {[ py "published_at" := of_opt_str (rss_published_at it) ]} ]};
        let items' := items ++ a :: nil in
        if (max_candidates <=? Z.of_nat (length items'))%Z then ret items'
        else articles_of_rss st rest (rss_url it :: seen_urls) items'
  end.

(** The articles of the url candidates. *)
Fixpoint articles_of_urls (st : disc) (urls : list pystr) (seen_urls : list pystr)
    (items : list Article) : M (list Article) :=
  match urls with
  | nil => ret items
  | u :: rest =>
      if existsb (eqb_str u) seen_urls then articles_of_urls st rest seen_urls items
      else
        do a <- make_article st u nil nil nil None
                  (match discovery_method st with nil => py "listing" | m => m end) ∅;
        let items' := items ++ a :: nil in
        if (max_candidates <=? Z.of_nat (length items'))%Z then ret items'
        else articles_of_urls st rest (u :: seen_urls) items'
  end.

Definition sniff_published_at_fast (url_ : pystr) : M (option pystr) :=
  do (fr, data) <- get url_ (py "any");
  if negb (ok fr) || no_data data then ret None
  else ret (sniff_date_in_page W fr (body data)).

(** [not a.published_at]. *)
Definition undated (a : Article) : bool :=
  match published_at (meta a) with Some (_ :: _) => false | _ => true end.

Definition set_published (pub_iso : pystr) (a : Article) : Article :=
  let a1 := set_meta {| title := title (meta a); published_at := Some pub_iso;
                        author := author (meta a); summary := summary (meta a) |} a in
  set_ident {| id := _article_id W source_slug_ (url (ident a1)) (published_at (meta a1));
               country := country (ident a1); source_name := source_name (ident a1);
               source_slug := source_slug (ident a1); url := url (ident a1) |} a1.

(** The sniffing loop over the undated items. The items are the objects
    of the list [items], so the loop is a pass over that list that skips
    the dated ones; [idx] counts the undated items seen. *)
Fixpoint sniff_loop (n_missing : nat) (items : list Article) (idx : nat) (log_ : list pystr)
    : M (list Article * list pystr) :=
  match items with
  | nil => ret (nil, log_)
  | a :: rest =>
      if undated a then
        do pub_iso <- sniff_published_at_fast (url (ident a));
        let a' :=
          match pub_iso with
          | Some (c :: p) => set_published (c :: p) a
          | _ => append_note (py "date_sniff_failed") a
          end in
        let log_ :=
          if (Nat.modulo (idx + 1) 25 =? 0)%nat
          then log_ ++ (tag ++ py "Date sniff progress: " ++ fmt_nat (idx + 1) ++ py "/"
                        ++ fmt_nat n_missing) :: nil
          else log_ in
        do (rest', log_') <- sniff_loop n_missing rest (S idx) log_;
        ret (a' :: rest', log_')
      else
        do (rest', log_') <- sniff_loop n_missing rest idx log_;
        ret (a :: rest', log_')
  end.

End Run.

(** [s < t] on strings: by code points, a proper prefix first. *)
Fixpoint str_ltb (s t : pystr) : bool :=
  match s, t with
  | _, nil => false
  | nil, _ :: _ => true
  | c :: s', d :: t' => (c <? d)%N || (c =? d)%N && str_ltb s' t'
  end.

(** The sort key [(1 if d else 0, d)] with [d = a.published_at or ""]. *)
Definition sort_key (a : Article) : bool * pystr :=
  let d := str_or (published_at (meta a)) nil in
  (match d with nil => false | _ => true end, d).

Definition sort_key_ltb (x y : bool * pystr) : bool :=
  (negb (fst x) && fst y) || (Bool.eqb (fst x) (fst y) && str_ltb (snd x) (snd y)).

(** What a call of discovery ends with. *)
Inductive outcome :=
| Raise (exc : pystr)
| Return (items : list Article) (log_ : list pystr).

Definition fetch_discovery_items (source : Source) (limit_items : Z)
    (mode : pystr) (latest_n : option Z) (on_date date_from date_to : option date)
    (prefetch_multiplier : Z) (allow_unknown_article_urls : bool) : M outcome :=
  let log0 : list pystr := nil in
  let source_slug_ := _safe_slug U (src_name source) in
  let tag_ := tag source in
  let mode := upper U (strip (str_or (Some mode) FETCH_MODE_ANY)) in
  let mode :=
    if existsb (eqb_str mode)
         (FETCH_MODE_ANY :: FETCH_MODE_LATEST_N :: FETCH_MODE_ON_DATE :: FETCH_MODE_DATE_RANGE :: nil)
    then mode else FETCH_MODE_ANY in
  let target_n :=
    match latest_n with
    | Some n => if (0 <? n)%Z then n else limit_items
    | None => limit_items
    end in
  let target_n := if (target_n <=? 0)%Z then 1%Z else target_n in
  let want_date_filter :=
    eqb_str mode FETCH_MODE_ON_DATE || eqb_str mode FETCH_MODE_DATE_RANGE in
  let max_candidates := Z.max (target_n * Z.max 1 prefetch_multiplier) target_n in
  let enabled_endpoints := List.filter ep_enabled (src_endpoints source) in
  match enabled_endpoints with
  | nil => ret (Return nil ((tag_ ++ py "No enabled endpoints configured.") :: nil))
  | _ =>
      do st <- endpoints_loop source allow_unknown_article_urls max_candidates enabled_endpoints
                 {| rss_items := nil; url_candidates := nil; endpoint_used := None;
                    discovery_method := nil; log := log0 |};
      match endpoint_used st with
      | None | Some nil =>
          ret (Return nil ((tag_ ++ py "No endpoint used (configuration issue).") :: nil))
      | Some endpoint_used_ =>
          do items <-
            (match rss_items st with
             | nil => articles_of_urls source max_candidates source_slug_ st
                        (url_candidates st) nil nil
             | its => articles_of_rss source max_candidates source_slug_ st its nil nil
             end);
          do (items, log_) <-
            (if want_date_filter then
               let missing := List.filter undated items in
               let log_ :=
                 match missing with
                 | nil => log st
                 | _ => log st ++ (tag_ ++ py "Date filter enabled; sniffing published dates for "
                                   ++ fmt_nat (length missing) ++ py " items...") :: nil
                 end in
               sniff_loop source source_slug_ (length missing) items 0 log_
             else ret (items, log st));
          let filtered : outcome + (list Article * list pystr) :=
            if eqb_str mode FETCH_MODE_ON_DATE then
              match on_date with
              | None => inl (Raise (py "ValueError: mode=ON_DATE requires on_date=<datetime.date>"))
              | Some od =>
                  let kept :=
                    List.filter (fun a => match _iso_to_date U W (published_at (meta a)) with
                                          | Some d => (d =? od)%Z
                                          | None => false
                                          end) items in
                  inr (kept, log_ ++ (tag_ ++ py "ON_DATE=" ++ date_isoformat W od ++ py " kept "
                                      ++ fmt_nat (length kept) ++ py " items") :: nil)
              end
            else if eqb_str mode FETCH_MODE_DATE_RANGE then
              match date_from, date_to with
              | None, None =>
                  inl (Raise (py "ValueError: mode=DATE_RANGE requires date_from and/or date_to"))
              | _, _ =>
                  let kept :=
                    List.filter (fun a => _in_date_range (_iso_to_date U W (published_at (meta a)))
                                            date_from date_to) items in
                  let show (d : option date) :=
                    match d with Some d => date_isoformat W d | None => py "..." end in
                  inr (kept, log_ ++ (tag_ ++ py "DATE_RANGE " ++ show date_from ++ py " -> "
                                      ++ show date_to ++ py " kept " ++ fmt_nat (length kept)
                                      ++ py " items") :: nil)
              end
            else inr (items, log_) in
          match filtered with
          | inl exc => ret exc
          | inr (items, log_) =>
              let items :=
                if eqb_str mode FETCH_MODE_LATEST_N || eqb_str mode FETCH_MODE_ON_DATE
                   || eqb_str mode FETCH_MODE_DATE_RANGE
                then sort_desc (fun a b => sort_key_ltb (sort_key a) (sort_key b)) items
                else items in
              let items := firstn (Z.to_nat target_n) items in
              ret (Return items
                     (log_ ++ (tag_ ++ py "Discovery=" ++ discovery_method st ++ py " endpoint="
                               ++ endpoint_used_ ++ py " mode=" ++ mode ++ py " returned="
                               ++ fmt_nat (length items) ++ py " (target=" ++ str_of_Z target_n
                               ++ py ")") :: nil))
          end
      end
  end.

End Discovery.
End fetcher.

(** ** Concrete inputs

    The articles, completions and worlds the statements below are checked
    on. *)

Module scenarios.
Import Py Val Re models.

(** The double quote character. *)
Definition dq : pystr := 34%N :: nil.

Definition quoted (s : string) : pystr := dq ++ py s ++ dq.

(** [Article(id=..., country=..., source_name=..., source_slug=...,
    url=..., title=...)]: every other field at the default of the
    dataclass. *)
Definition new_article (id_ country_ source_name_ source_slug_ url_ title_ : pystr) : Article := {|
  ident := {| id := id_; country := country_; source_name := source_name_;
              source_slug := source_slug_; url := url_ |};
  meta := {| title := title_; published_at := None; author := None; summary := None |};
  content := {| content_text := None; content_length := 0; extraction_method := nil;
                extraction_notes := nil |};
  run := {| run_id := None; run_created_at := None; fetched_at := None |};
  kw := {| keywords_matched := nil; keywords_national_matched := nil;
           keywords_threat_matched := nil; national_relevant := None;
           threat_relevant := None; shortlisted := None;
           kw_national_hits := nil; kw_threat_hits := nil |};
  layer2 := {| relevance_score := None; evidence_strength := None; evidence_numeric := None;
               urgency_score := None; keyword_intensity := None; prepriority_score := None;
               prepriority_bucket := None |};
  layer3 := {| threat_score := None; threat_level := None; threat_vector := None;
               one_liner_threat := None; reasons := nil |};
  risk_index := None;
  legacy := {| truth_score := None; truth_label := None; truth_reasons := nil;
               threat_factors := nil |};
  raw := ∅
|}.

Definition with_published (p : string) (a : Article) : Article :=
  set_meta {| title := title (meta a); published_at := Some (py p);
              author := author (meta a); summary := summary (meta a) |} a.

Definition with_hits (nat_hits thr_hits : list string) (a : Article) : Article :=
  set_kw {| keywords_matched := keywords_matched (kw a);
            keywords_national_matched := keywords_national_matched (kw a);
            keywords_threat_matched := keywords_threat_matched (kw a);
            national_relevant := national_relevant (kw a);
            threat_relevant := threat_relevant (kw a);
            shortlisted := shortlisted (kw a);
            kw_national_hits := map py nat_hits;
            kw_threat_hits := map py thr_hits |} a.

(** A store that holds [a] at every reference. *)
Definition store_of (a : Article) : store := fun _ => a.

(** 15 March 2024 as an ordinal. *)
Definition day_2024_03_15 : Z := 738960.

Definition runtime_2024_03_15 : analysis_layers.datelib :=
  analysis_layers.dateonly_datelib day_2024_03_15.

(** The scenario of the specification: a foreign source reports, on the
    day, "Islamabad: bomb blast kills 5". *)
Definition islamabad_blast : Article :=
  with_hits ("Islamabad" :: "capital" :: "federal" :: nil)%string ("bomb" :: "blast" :: nil)%string
    (with_published "2024-03-15"
       (new_article (py "0123456789abcdef01234567") (py "INDIA") (py "Example Wire")
          (py "example_wire") (py "http://example.com/a") (py "Islamabad: bomb blast kills 5"))).

(** The same report with a named organisation, a cited report and a
    quotation with attribution. *)
Definition islamabad_blast_quoted : Article :=
  with_hits ("Islamabad" :: "capital" :: "federal" :: nil)%string ("bomb" :: "blast" :: nil)%string
    (with_published "2024-03-15"
       (new_article (py "0123456789abcdef01234567") (py "INDIA") (py "Example Wire")
          (py "example_wire") (py "http://example.com/a")
          (py "Islamabad police report said " ++ quoted "bomb blast kills 5"))).

Definition with_layer2 (v : Layer2) (a : Article) : Article := set_layer2 v a.

(** An article scored by Layer 2 and Layer 3 whose urgency is a plain
    zero: [urgency_score=0.0, evidence_numeric=60.0, relevance_score=0.0,
    threat_score=0.0]. *)
Definition zero_urgency : Article :=
  set_layer3
    {| threat_score := Some 0%float; threat_level := Some (py "LOW");
       threat_vector := Some (py "OTHER"); one_liner_threat := Some nil; reasons := nil |}
    (set_layer2
       {| relevance_score := Some 0%float; evidence_strength := Some (py "MED");
          evidence_numeric := Some 60%float; urgency_score := Some 0%float;
          keyword_intensity := Some 0%float; prepriority_score := Some 12%float;
          prepriority_bucket := Some (py "LOW") |}
       (new_article (py "0123456789abcdef01234567") (py "INDIA") (py "Example Wire")
          (py "example_wire") (py "http://example.com/a") (py "Quiet day"))).

(** The fusion formula in the words of the specification: a default
    stands in for an input exactly when the input is absent. *)
Definition if_absent (x : option float) (d : float) : float :=
  match x with Some v => v | None => d end.

Definition risk_index_as_specified (a : Article) : float :=
  analysis_layers._clamp
    (0.45 * if_absent (threat_score (layer3 a)) 0
     + 0.35 * if_absent (relevance_score (layer2 a)) 0
     + 0.10 * if_absent (urgency_score (layer2 a)) 20
     + 0.10 * if_absent (evidence_numeric (layer2 a)) 25)%float 0 100.

(** [float(s)] of a runtime that is only ever given plain decimal
    numerals, read as [json.loads] reads them. *)
Definition plain_float_of_str (s : pystr) : option float :=
  match Json.p_number (strip s) with
  | Some (PInt z, nil) => float_of_Z z
  | Some (PFloat f, nil) => Some f
  | _ => None
  end.

(** A model that is loaded without trouble and answers every prompt with
    the same completion. *)
Definition llm_answering (text : pystr) : analysis_layers.llm_env := {|
  analysis_layers.isfile := fun _ => true;
  analysis_layers.load_llama_raises := None;
  analysis_layers.llm_call := fun _ => analysis_layers.LlmText text;
  analysis_layers.float_of_str := plain_float_of_str;
  analysis_layers.str_other := fun _ => py "<object>"
|}.

(** The completion of the parsing scenario:
    blah blah {"threat_score": 82, "threat_vector": "bomb",
    "reasons": ["a","b","c","d","e"]} trailing junk *)
Definition bomb_completion : pystr :=
  py "blah blah {" ++ quoted "threat_score" ++ py ": 82, " ++ quoted "threat_vector" ++ py ": "
  ++ quoted "bomb" ++ py ", " ++ quoted "reasons" ++ py ": [" ++ quoted "a" ++ py ","
  ++ quoted "b" ++ py "," ++ quoted "c" ++ py "," ++ quoted "d" ++ py "," ++ quoted "e"
  ++ py "]} trailing junk".

(** The object it contains. *)
Definition bomb_object : gmap pystr pyval :=
  <[py "reasons" := PList (PStr (py "a") :: PStr (py "b") :: PStr (py "c") :: PStr (py "d")
                            :: PStr (py "e") :: nil)]>
    (<[py "threat_vector" := PStr (py "bomb")]>
       (<[py "threat_score" := PInt 82]> ∅)).

(** An article that an earlier run left with a level that does not match
    its score. *)
Definition stale_level : Article :=
  set_layer3
    {| threat_score := Some 10%float; threat_level := Some (py "CRITICAL");
       threat_vector := Some (py "TERROR"); one_liner_threat := Some (py "old");
       reasons := py "old reason" :: nil |}
    (new_article (py "0123456789abcdef01234567") (py "INDIA") (py "Example Wire")
       (py "example_wire") (py "http://example.com/a") (py "Quiet day")).

(** The completion {} and the completion
    {"threat_score": 90, "one_liner_threat": 5}. *)
Definition empty_object_completion : pystr := py "{}".

Definition numeric_one_liner_completion : pystr :=
  py "{" ++ quoted "threat_score" ++ py ": 90, " ++ quoted "one_liner_threat" ++ py ": 5}".

(** The Layer 3 fields an article is stored with, if it is stored. *)
Definition stored_layer3 (res : analysis_layers.step_result) : option Layer3 :=
  match res with
  | analysis_layers.Stored a => Some (layer3 a)
  | analysis_layers.Raised _ => None
  end.

End scenarios.

(** ** Predicates the statements use *)

Module predicates.
Import Py Val Re models.

(** A float that lies in [0, 100]. *)
Definition in_0_100 (x : option float) : Prop :=
  exists v, x = Some v /\ (0 <=? v)%float = true /\ (v <=? 100)%float = true.

(** The hits of a text, as a compiled keyword list finds them. *)
Definition nat_hits_of (U : ucd) (national_keywords : list pystr) (hay : pystr) : list pystr :=
  keywords._match_keywords U hay (keywords._compile_keyword_patterns U national_keywords).

Definition thr_hits_of (U : ucd) (threat_keywords : list pystr) (hay : pystr) : list pystr :=
  keywords._match_keywords U hay (keywords._compile_keyword_patterns U threat_keywords).

(** What the Layer 1 loop leaves on an article whose text is [hay]. *)
Definition after_layer1 (U : ucd) (national_keywords : list pystr) (hay : pystr)
    (a : Article) : Prop :=
  kw_national_hits (kw a) = nat_hits_of U national_keywords hay
  /\ kw_threat_hits (kw a) = nil
  /\ shortlisted (kw a) = Some false.

(** What the Layer 2 loop leaves on an article with text [fst k] and
    national hits [snd k]. *)
Definition after_layer2 (U : ucd) (threat_keywords : list pystr) (k : pystr * list pystr)
    (a : Article) : Prop :=
  kw_national_hits (kw a) = snd k
  /\ kw_threat_hits (kw a) = thr_hits_of U threat_keywords (fst k)
  /\ shortlisted (kw a)
     = Some (keywords.nonempty (snd k) && keywords.nonempty (thr_hits_of U threat_keywords (fst k))).

(** The seven threat vectors. *)
Definition allowed_vectors : list pystr :=
  py "MILITARY" :: py "TERROR" :: py "CYBER" :: py "DIPLO" :: py "ECON"
  :: py "INTERNAL" :: py "OTHER" :: nil.

(** What Layer 3 may change on an article: its Layer 3 group, and its
    extraction notes by appending. *)
Definition layer3_touch (a a' : Article) : Prop :=
  ident a' = ident a /\ meta a' = meta a /\ run a' = run a /\ kw a' = kw a
  /\ layer2 a' = layer2 a /\ risk_index a' = risk_index a /\ legacy a' = legacy a
  /\ raw a' = raw a
  /\ content_text (content a') = content_text (content a)
  /\ content_length (content a') = content_length (content a)
  /\ extraction_method (content a') = extraction_method (content a)
  /\ exists added, extraction_notes (content a') = extraction_notes (content a) ++ added.

(** [x or d] keeps a string that is there and not empty. *)
Definition kept_or_set (old new : option pystr) : Prop :=
  match old with
  | Some (c :: s) => new = Some (c :: s)
  | _ => is_Some new
  end.

(** An article after a failed scoring: one note more, every Layer 3
    field defined, and what was there before kept. *)
Definition failure_kept (note : pystr) (a a' : Article) : Prop :=
  layer3_touch a a'
  /\ extraction_notes (content a') = extraction_notes (content a) ++ note :: nil
  /\ is_Some (threat_score (layer3 a'))
  /\ kept_or_set (threat_level (layer3 a)) (threat_level (layer3 a'))
  /\ kept_or_set (threat_vector (layer3 a)) (threat_vector (layer3 a'))
  /\ kept_or_set (one_liner_threat (layer3 a)) (one_liner_threat (layer3 a'))
  /\ reasons (layer3 a') = reasons (layer3 a).


(** The value a key has in a list of pairs: the first one. *)
Fixpoint assoc (k : pystr) (l : list (pystr * pyval)) : option pyval :=
  match l with
  | nil => None
  | (k', v) :: l' => if eqb_str k k' then Some v else assoc k l'
  end.

(** [list(d.get(k, []) or []) or list(raw.get(k, []) or [])]: the hits an
    article has, or else the ones its [raw] holds under the same key. *)
Definition hits_or_raw (hits : list pystr) (raw_ : gmap pystr pyval) (k : string)
    : option (list pystr) :=
  match hits with
  | nil => read_strs raw_ k
  | _ => Some hits
  end.

(** The keyword group of an article read back from its own dictionary:
    empty national matches are filled from the legacy list, and the hits
    are the ones given. *)
Definition kw_reloaded (k : Keywords) (n t : list pystr) : Keywords :=
  {| keywords_matched := keywords_matched k;
     keywords_national_matched :=
       match keywords_matched k, keywords_national_matched k with
       | _ :: _, nil => fromkeys (keywords_matched k)
       | _, kn => kn
       end;
     keywords_threat_matched := keywords_threat_matched k;
     national_relevant := national_relevant k;
     threat_relevant := threat_relevant k;
     shortlisted := shortlisted k;
     kw_national_hits := n;
     kw_threat_hits := t |}.


End predicates.

(** * Properties *)

Import Py Val Re models.

(** ** The store *)

Lemma upd_same (s : store) (r : ref) (a : Article) : upd s r a r = a.
Proof. unfold upd. now rewrite Nat.eqb_refl. Qed.

Lemma upd_other (s : store) (r r' : ref) (a : Article) : r' <> r -> upd s r a r' = s r'.
Proof. intros Hne. unfold upd. apply Nat.eqb_neq in Hne. now rewrite Hne. Qed.

(** A loop that assigns [f] of each listed object to it, for an [f] that
    is not changed by its own assignment: every listed object ends as [f]
    of what it was, however often it is listed, and no other object
    changes. *)
Lemma fold_upd_idem (f : Article -> Article) (Hf : forall a, f (f a) = f a)
    (l : list ref) (s : store) (r : ref) :
  fold_left (fun s r => upd s r (f (s r))) l s r
  = if existsb (Nat.eqb r) l then f (s r) else s r.
Proof.
  revert s. induction l as [|x l IH]; intros s; simpl; [reflexivity|].
  rewrite IH. destruct (Nat.eqb r x) eqn:Erx; simpl.
  - apply Nat.eqb_eq in Erx. subst x. rewrite upd_same, Hf.
    now destruct (existsb (Nat.eqb r) l).
  - apply Nat.eqb_neq in Erx. now rewrite upd_other.
Qed.

(** ** Floats *)

Lemma ltb_leb (x y : float) : (x <? y)%float = true -> (x <=? y)%float = true.
Proof.
  rewrite ltb_spec, leb_spec. unfold SFltb, SFleb.
  now destruct (SFcompare (Prim2SF x) (Prim2SF y)) as [[]|].
Qed.

(** A value clamped to [0, 100] lies there, whatever it was (a NaN
    included). *)
Lemma clamp_0_100 (x : float) :
  (0 <=? analysis_layers._clamp x 0 100)%float = true
  /\ (analysis_layers._clamp x 0 100 <=? 100)%float = true.
Proof.
  unfold analysis_layers._clamp, max2, min2.
  destruct (x <? 100)%float eqn:Hhi.
  - destruct (0 <? x)%float eqn:Hlo.
    + split; now apply ltb_leb.
    + split; reflexivity.
  - split; reflexivity.
Qed.

(** ** Layer 2 *)

Section Layer2Facts.
Import analysis_layers.
Variable U : ucd.
Variable D : datelib.

(** The scores read no Layer 2 field. *)
Lemma layer2_of_set_layer2 (v : Layer2) (a : Article) :
  layer2_of U D (set_layer2 v a) = layer2_of U D a.
Proof.
  unfold layer2_of, _compute_relevance, _evidence_points, _compute_urgency,
    _compute_keyword_intensity, kw_nat_of, kw_thr_of, _haystack.
  reflexivity.
Qed.

Lemma score_idem (a : Article) :
  set_layer2 (layer2_of U D (set_layer2 (layer2_of U D a) a)) (set_layer2 (layer2_of U D a) a)
  = set_layer2 (layer2_of U D a) a.
Proof. now rewrite layer2_of_set_layer2. Qed.

(** What [compute_layer2_scores] leaves in the store. *)
Lemma compute_layer2_scores_at (s : store) (articles : list ref) (r : ref) :
  compute_layer2_scores U D s articles r
  = if existsb (Nat.eqb r) articles then set_layer2 (layer2_of U D (s r)) (s r) else s r.
Proof.
  unfold compute_layer2_scores.
  apply (fold_upd_idem (fun a => set_layer2 (layer2_of U D a) a) score_idem).
Qed.

(** C9. [compute_layer2_scores] leaves every field of every article
    outside the Layer 2 group as it was (identity, metadata, content, run
    context, keyword funnel fields, Layer 3 fields, risk index, legacy
    fields and raw), and on every article of the list it assigns all seven
    Layer 2 fields. *)
Theorem compute_layer2_scores_frame (s : store) (articles : list ref) (r : ref) :
  let s' := compute_layer2_scores U D s articles in
  (ident (s' r) = ident (s r) /\ meta (s' r) = meta (s r) /\ content (s' r) = content (s r)
   /\ run (s' r) = run (s r) /\ kw (s' r) = kw (s r) /\ layer3 (s' r) = layer3 (s r)
   /\ risk_index (s' r) = risk_index (s r) /\ legacy (s' r) = legacy (s r)
   /\ raw (s' r) = raw (s r))
  /\ (if existsb (Nat.eqb r) articles
      then layer2 (s' r) = layer2_of U D (s r)
           /\ is_Some (relevance_score (layer2 (s' r)))
           /\ is_Some (evidence_strength (layer2 (s' r)))
           /\ is_Some (evidence_numeric (layer2 (s' r)))
           /\ is_Some (urgency_score (layer2 (s' r)))
           /\ is_Some (keyword_intensity (layer2 (s' r)))
           /\ is_Some (prepriority_score (layer2 (s' r)))
           /\ is_Some (prepriority_bucket (layer2 (s' r)))
      else layer2 (s' r) = layer2 (s r)).
Proof.
  cbv zeta. rewrite compute_layer2_scores_at.
  destruct (existsb (Nat.eqb r) articles).
  - split; [now repeat split|].
    split; [reflexivity|].
    unfold layer2_of.
    destruct (_evidence_bucket_and_numeric (_evidence_points U (s r))).
    cbn [relevance_score evidence_strength evidence_numeric urgency_score
         keyword_intensity prepriority_score prepriority_bucket].
    repeat split; eexists; reflexivity.
  - split; [now repeat split|reflexivity].
Qed.

Lemma kw_nat_of_hits (a : Article) (n : nat) :
  length (kw_national_hits (kw a)) = S n -> kw_nat_of a = kw_national_hits (kw a).
Proof. unfold kw_nat_of. now destruct (kw_national_hits (kw a)). Qed.

Lemma kw_thr_of_hits (a : Article) (n : nat) :
  length (kw_threat_hits (kw a)) = S n -> kw_thr_of a = kw_threat_hits (kw a).
Proof. unfold kw_thr_of. now destruct (kw_threat_hits (kw a)). Qed.

(** N=3, P=0, L=1, S=0 give R = 10*3 + 25 = 55. *)
Lemma scenario_relevance (a : Article) :
  length (kw_national_hits (kw a)) = 3%nat ->
  _count_explicit_pakistan_mentions U (_haystack U a) = 0%nat ->
  Re.search U true _PAK_LOCATION_PAT (_haystack U a)
  || Re.search U true _PAK_SECURITY_PAT (_haystack U a) = true ->
  is_pakistan U (country (ident a)) = false ->
  _compute_relevance U a = 55%float.
Proof.
  intros HN HP HL HS. unfold _compute_relevance.
  rewrite (kw_nat_of_hits a 2 HN), HN, HP, HL, HS. reflexivity.
Qed.

(** Age 0 gives recency 60, two threat hits a boost of 8: U = 68. *)
Lemma scenario_urgency (a : Article) :
  length (kw_threat_hits (kw a)) = 2%nat ->
  _try_parse_iso_date U D (published_at (meta a)) = Some (today_utc D) ->
  _compute_urgency U D a = 68%float.
Proof.
  intros HT Hage. unfold _compute_urgency, _today_utc.
  rewrite Hage, (kw_thr_of_hits a 1 HT), HT, Z.sub_diag. reflexivity.
Qed.

(** Five hits in all: K = 10*5 = 50. *)
Lemma scenario_intensity (a : Article) :
  length (kw_national_hits (kw a)) = 3%nat ->
  length (kw_threat_hits (kw a)) = 2%nat ->
  _compute_keyword_intensity a = 50%float.
Proof.
  intros HN HT. unfold _compute_keyword_intensity.
  rewrite (kw_nat_of_hits a 2 HN), (kw_thr_of_hits a 1 HT), HN, HT. reflexivity.
Qed.

Lemma evidence_bucket_med (points : Z) :
  (4 <= points <= 7)%Z -> _evidence_bucket_and_numeric points = (py "MED", 60%float).
Proof.
  intros [Hlo Hhi]. unfold _evidence_bucket_and_numeric.
  destruct (Z.leb_spec points 3); [lia|].
  destruct (Z.leb_spec points 7); [reflexivity|lia].
Qed.


End Layer2Facts.



(** ** Risk fusion *)

Section FusionFacts.
Import analysis_layers.

Lemma risk_of_set_risk_index (v : option float) (a : Article) :
  risk_of (set_risk_index v a) = risk_of a.
Proof. reflexivity. Qed.

Lemma fuse_idem (a : Article) :
  set_risk_index (Some (risk_of (set_risk_index (Some (risk_of a)) a)))
    (set_risk_index (Some (risk_of a)) a)
  = set_risk_index (Some (risk_of a)) a.
Proof. reflexivity. Qed.

(** What [compute_risk_index] leaves in the store. *)
Lemma compute_risk_index_at (s : store) (articles : list ref) (r : ref) :
  compute_risk_index s articles r
  = if existsb (Nat.eqb r) articles then set_risk_index (Some (risk_of (s r))) (s r) else s r.
Proof.
  unfold compute_risk_index.
  apply (fold_upd_idem (fun a => set_risk_index (Some (risk_of a)) a) fuse_idem).
Qed.

(** C3, as amended. [compute_risk_index] sets, on every article of the
    list, [risk_index] to the clamp to [0, 100] of
    0.45*T + 0.35*R + 0.10*U + 0.10*E, where 0 stands in for a threat or
    relevance score that is absent, 20 for an urgency score that is absent
    or zero and 25 for an evidence value that is absent or zero; the
    result lies in [0, 100]; nothing else is assigned. *)
Theorem compute_risk_index_fused (s : store) (articles : list ref) (r : ref) :
  let s' := compute_risk_index s articles in
  let or_default (x : option float) (d : float) : float :=
    match x with
    | None => d
    | Some v => if (v =? 0)%float then d else v
    end in
  if existsb (Nat.eqb r) articles then
    let a := s r in
    let fused :=
      _clamp (0.45 * or_default (threat_score (layer3 a)) 0
              + 0.35 * or_default (relevance_score (layer2 a)) 0
              + 0.10 * or_default (urgency_score (layer2 a)) 20
              + 0.10 * or_default (evidence_numeric (layer2 a)) 25)%float 0 100 in
    s' r = set_risk_index (Some fused) a
    /\ (0 <=? fused)%float = true /\ (fused <=? 100)%float = true
  else s' r = s r.
Proof.
  cbv zeta. rewrite compute_risk_index_at.
  destruct (existsb (Nat.eqb r) articles); [|reflexivity].
  split; [|apply clamp_0_100].
  unfold risk_of, float_or, float_truthy.
  repeat match goal with
         | |- context [match ?x with Some _ => _ | None => _ end] => destruct x
         | |- context [(?v =? 0)%float] => destruct (v =? 0)%float
         end; reflexivity.
Qed.

End FusionFacts.

(** C3, as first stated, fails: an urgency score that is present and zero
    is replaced by 20 as well. On [zero_urgency] the stated formula gives
    0.10*0 + 0.10*60 = 6, the code stores 0.10*20 + 0.10*60 = 8. *)
Lemma risk_index_zero_urgency_counterexample :
  urgency_score (layer2 scenarios.zero_urgency) = Some 0%float
  /\ scenarios.risk_index_as_specified scenarios.zero_urgency = 6%float
  /\ risk_index (analysis_layers.compute_risk_index (scenarios.store_of scenarios.zero_urgency)
                   (0%nat :: nil) 0%nat) = Some 8%float.
Proof. vm_compute. repeat split; reflexivity. Qed.

(** ** Layer 3 *)

Section Layer3Facts.
Import analysis_layers.
Variable U : ucd.
Variable E : llm_env.

(** The level is read off the score by the thresholds 75, 50 and 25. *)
Lemma threat_level_thresholds (t : float) :
  _threat_level_from_score t
  = if (75 <=? t)%float then py "CRITICAL"
    else if (50 <=? t)%float then py "HIGH"
    else if (25 <=? t)%float then py "MED"
    else py "LOW".
Proof. reflexivity. Qed.

(** Two objects that agree on every key but [threat_level] are scored
    alike. *)
Lemma score_from_object_ignores_level (obj obj' : gmap pystr pyval) (a : Article) :
  (forall k, k <> py "threat_level" -> obj !! k = obj' !! k) ->
  score_from_object U E obj a = score_from_object U E obj' a.
Proof.
  intros Hagree. unfold score_from_object, get.
  rewrite !(Hagree (py "threat_score")), !(Hagree (py "threat_vector")),
    !(Hagree (py "one_liner_threat")), !(Hagree (py "reasons")) by (vm_compute; discriminate).
  reflexivity.
Qed.

(** C2, as amended. When the completion for an article yields a JSON
    object that is not empty and whose [one_liner_threat] is absent, falsy
    or a string, the article is stored with [threat_score] the clamped
    score [t] of the object and [threat_level] the level of [t] by the
    thresholds (75 CRITICAL, 50 HIGH, 25 MED, else LOW); [t] lies in
    [0, 100]; and an object that differs only in its [threat_level] entry
    is stored in the same way. *)
Theorem layer3_level_recomputed (a : Article) (text : pystr) (obj : gmap pystr pyval)
    (one : pystr) :
  llm_call E a = LlmText text ->
  _extract_json_object U text = Some obj ->
  obj <> ∅ ->
  or_else (get obj "one_liner_threat" (PStr nil)) (PStr nil) = PStr one ->
  let t := _clamp (_coerce_float E (get obj "threat_score" (PFloat 0)) 0) 0 100 in
  (exists a',
     layer3_step U E a = Stored a'
     /\ threat_score (layer3 a') = Some t
     /\ threat_level (layer3 a')
        = Some (if (75 <=? t)%float then py "CRITICAL"
                else if (50 <=? t)%float then py "HIGH"
                else if (25 <=? t)%float then py "MED"
                else py "LOW"))
  /\ ((0 <=? t)%float = true /\ (t <=? 100)%float = true)
  /\ (forall proposed : pyval,
        score_from_object U E (<[py "threat_level" := proposed]> obj) a
        = layer3_step U E a).
Proof.
  intros Hcall Hobj Hne Hone t.
  assert (Hstep : layer3_step U E a = score_from_object U E obj a).
  { unfold layer3_step. rewrite Hcall, Hobj. unfold no_object.
    now rewrite bool_decide_eq_false_2. }
  split; [|split].
  - rewrite Hstep. unfold score_from_object. rewrite Hone.
    eexists. split; [reflexivity|]. split; reflexivity.
  - apply clamp_0_100.
  - intros proposed. rewrite Hstep. apply score_from_object_ignores_level.
    intros k Hk. now rewrite lookup_insert_ne.
Qed.

(** C5. On the completion of the parsing scenario the object between the
    first opening and the last closing brace is extracted, and the article
    ends with threat_score 82.0, threat_level CRITICAL, threat_vector OTHER
    (bomb is no allowed vector) and the four reasons a, b, c, d. *)
Theorem layer3_scenario_parse (a : Article) :
  llm_call E a = LlmText scenarios.bomb_completion ->
  _extract_json_object U scenarios.bomb_completion = Some scenarios.bomb_object
  /\ layer3_step U E a
     = Stored (set_layer3
                 {| threat_score := Some 82%float;
                    threat_level := Some (py "CRITICAL");
                    threat_vector := Some (py "OTHER");
                    one_liner_threat := Some nil;
                    reasons := py "a" :: py "b" :: py "c" :: py "d" :: nil |} a).
Proof.
  intros Hcall. split.
  - reflexivity.
  - unfold layer3_step. rewrite Hcall. reflexivity.
Qed.

End Layer3Facts.

Lemma layer3_scenario_parse_witness :
  analysis_layers._extract_json_object ascii_ucd scenarios.bomb_completion
  = Some scenarios.bomb_object
  /\ analysis_layers.layer3_step ascii_ucd (scenarios.llm_answering scenarios.bomb_completion)
       scenarios.stale_level
     = analysis_layers.Stored
         (set_layer3
            {| threat_score := Some 82%float;
               threat_level := Some (py "CRITICAL");
               threat_vector := Some (py "OTHER");
               one_liner_threat := Some nil;
               reasons := py "a" :: py "b" :: py "c" :: py "d" :: nil |} scenarios.stale_level).
Proof.
  apply (layer3_scenario_parse ascii_ucd (scenarios.llm_answering scenarios.bomb_completion)
           scenarios.stale_level).
  reflexivity.
Defined.

Lemma layer3_level_recomputed_witness :
  let E := scenarios.llm_answering scenarios.bomb_completion in
  let a := scenarios.stale_level in
  let obj := scenarios.bomb_object in
  let t := analysis_layers._clamp
             (analysis_layers._coerce_float E (get obj "threat_score" (PFloat 0)) 0) 0 100 in
  (exists a',
     analysis_layers.layer3_step ascii_ucd E a = analysis_layers.Stored a'
     /\ threat_score (layer3 a') = Some t
     /\ threat_level (layer3 a')
        = Some (if (75 <=? t)%float then py "CRITICAL"
                else if (50 <=? t)%float then py "HIGH"
                else if (25 <=? t)%float then py "MED"
                else py "LOW"))
  /\ ((0 <=? t)%float = true /\ (t <=? 100)%float = true)
  /\ (forall proposed : pyval,
        analysis_layers.score_from_object ascii_ucd E (<[py "threat_level" := proposed]> obj) a
        = analysis_layers.layer3_step ascii_ucd E a).
Proof.
  apply (layer3_level_recomputed ascii_ucd
           (scenarios.llm_answering scenarios.bomb_completion) scenarios.stale_level
           scenarios.bomb_completion scenarios.bomb_object nil).
  - reflexivity.
  - reflexivity.
  - apply insert_non_empty.
  - reflexivity.
Defined.

(** C2, as first stated, fails twice. The completion that is an empty
    pair of braces is a JSON object, yet the code takes the empty object
    for a parse failure and keeps the level the article had: CRITICAL
    beside a score of 10, whose level is LOW. And on an object whose
    one_liner_threat is the number 5 the cleaning of the one-liner raises
    before anything is stored. *)
Lemma layer3_level_counterexample :
  Json.loads scenarios.empty_object_completion = Some (PDict ∅)
  /\ scenarios.stored_layer3
       (analysis_layers.layer3_step ascii_ucd
          (scenarios.llm_answering scenarios.empty_object_completion) scenarios.stale_level)
     = Some {| threat_score := Some 10%float; threat_level := Some (py "CRITICAL");
               threat_vector := Some (py "TERROR"); one_liner_threat := Some (py "old");
               reasons := py "old reason" :: nil |}
  /\ analysis_layers._threat_level_from_score 10 = py "LOW"
  /\ analysis_layers._extract_json_object ascii_ucd scenarios.numeric_one_liner_completion
     = Some (<[py "one_liner_threat" := PInt 5]> (<[py "threat_score" := PInt 90]> ∅))
  /\ analysis_layers.layer3_step ascii_ucd
       (scenarios.llm_answering scenarios.numeric_one_liner_completion) scenarios.stale_level
     = analysis_layers.Raised (py "AttributeError").
Proof. repeat split; reflexivity. Qed.

(** * Further properties of the code *)

(** ** Layer 2: ranges *)

Section Layer2Ranges.
Import analysis_layers predicates.
Variable U : ucd.
Variable D : datelib.

Lemma clamped_in_0_100 (x : float) : in_0_100 (Some (_clamp x 0 100)).
Proof. exists (_clamp x 0 100). split; [reflexivity|apply clamp_0_100]. Qed.

(** The three evidence buckets and their numbers. *)
Lemma evidence_bucket_cases (points : Z) :
  _evidence_bucket_and_numeric points = (py "LOW", 25%float)
  \/ _evidence_bucket_and_numeric points = (py "MED", 60%float)
  \/ _evidence_bucket_and_numeric points = (py "HIGH", 90%float).
Proof.
  unfold _evidence_bucket_and_numeric.
  destruct (points <=? 3)%Z; [now left|].
  destruct (points <=? 7)%Z; [right; now left|right; now right].
Qed.

(** X1. After [compute_layer2_scores], every article of the list has its
    relevance, urgency, keyword intensity and pre-priority scores in
    [0, 100], an evidence strength and number that are one of LOW/25,
    MED/60, HIGH/90, and a bucket that is the bucket of the stored
    pre-priority score. *)
Theorem layer2_scores_in_range (s : store) (articles : list ref) (r : ref) :
  let l2 := layer2 (compute_layer2_scores U D s articles r) in
  if existsb (Nat.eqb r) articles then
    in_0_100 (relevance_score l2) /\ in_0_100 (urgency_score l2)
    /\ in_0_100 (keyword_intensity l2) /\ in_0_100 (prepriority_score l2)
    /\ ((evidence_strength l2 = Some (py "LOW") /\ evidence_numeric l2 = Some 25%float)
        \/ (evidence_strength l2 = Some (py "MED") /\ evidence_numeric l2 = Some 60%float)
        \/ (evidence_strength l2 = Some (py "HIGH") /\ evidence_numeric l2 = Some 90%float))
    /\ prepriority_bucket l2 = Some (_prepriority_bucket (prepriority_score l2))
  else l2 = layer2 (s r).
Proof.
  cbv zeta. rewrite compute_layer2_scores_at.
  destruct (existsb (Nat.eqb r) articles); [|reflexivity].
  simpl layer2. unfold layer2_of.
  destruct (evidence_bucket_cases (_evidence_points U (s r))) as [H|[H|H]];
    rewrite H; cbn [relevance_score urgency_score keyword_intensity prepriority_score
                    evidence_strength evidence_numeric prepriority_bucket];
    (repeat split; try apply clamped_in_0_100; auto).
Qed.

End Layer2Ranges.

(** ** The shortlist filter *)

(** A loop over references that assigns [f] of each object to it, collects
    the references whose object satisfies [p] and adds up [c]; [f] keeps
    the [key] of an object, on which [p] depends, and establishes [Post]
    of the key. *)
Section LoopSpec.
Variable K : Type.
Variable key : Article -> K.
Variable f : Article -> Article.
Variable p : Article -> bool.
Variable c : Article -> nat.
Variable pk : K -> bool.
Variable Post : K -> Article -> Prop.
Variable body : store * list ref * nat -> ref -> store * list ref * nat.
Hypothesis Hbody : forall s acc tot r,
  body (s, acc, tot) r
  = (upd s r (f (s r)), (if p (s r) then acc ++ r :: nil else acc), (tot + c (s r))%nat).
Hypothesis Hkey : forall a, key (f a) = key a.
Hypothesis Hp : forall a, p a = pk (key a).
Hypothesis Hpost : forall a, Post (key a) (f a).

Lemma loop_spec (l : list ref) (s : store) (acc : list ref) (tot : nat) :
  let '(s', acc', _) := fold_left body l (s, acc, tot) in
  (forall r, key (s' r) = key (s r))
  /\ (forall r, In r l -> Post (key (s r)) (s' r))
  /\ (forall r, ~ In r l -> s' r = s r)
  /\ acc' = acc ++ List.filter (fun r => p (s r)) l.
Proof.
  revert s acc tot. induction l as [|x l IH]; intros s acc tot.
  - simpl. repeat split; try tauto. now rewrite app_nil_r.
  - simpl fold_left. rewrite Hbody.
    specialize (IH (upd s x (f (s x))) (if p (s x) then acc ++ x :: nil else acc)
                  (tot + c (s x))%nat).
    destruct (fold_left body l _) as [[s' acc'] tot'].
    destruct IH as (IHkey & IHpost & IHframe & IHacc).
    assert (Hk1 : forall r, key (upd s x (f (s x)) r) = key (s r)).
    { intros r. destruct (Nat.eq_dec r x) as [->|Hne].
      - now rewrite upd_same, Hkey.
      - now rewrite upd_other. }
    split; [|split; [|split]].
    + intros r. now rewrite IHkey, Hk1.
    + intros r Hin. destruct (in_dec Nat.eq_dec r l) as [Hl|Hl].
      * rewrite <- Hk1. now apply IHpost.
      * destruct Hin as [->|Hin]; [|contradiction].
        rewrite (IHframe r Hl), upd_same. apply Hpost.
    + intros r Hnin. rewrite IHframe.
      * apply upd_other. intros ->. apply Hnin. now left.
      * intros Hin. apply Hnin. now right.
    + rewrite IHacc. simpl List.filter.
      assert (Hfilter : List.filter (fun r => p (upd s x (f (s x)) r)) l
                        = List.filter (fun r => p (s r)) l).
      { apply List.filter_ext. intros r. now rewrite !Hp, Hk1. }
      rewrite Hfilter. destruct (p (s x)); [now rewrite <- app_assoc|reflexivity].
Qed.

End LoopSpec.

(** A loop that only assigns keeps every key the assignment keeps. *)
Lemma fold_upd_key (K : Type) (key : Article -> K) (f : Article -> Article)
    (Hkey : forall a, key (f a) = key a) (l : list ref) (s : store) (r : ref) :
  key (fold_left (fun s r => upd s r (f (s r))) l s r) = key (s r).
Proof.
  revert s. induction l as [|x l IH]; intros s; simpl; [reflexivity|].
  rewrite IH. destruct (Nat.eq_dec r x) as [->|Hne].
  - now rewrite upd_same, Hkey.
  - now rewrite upd_other.
Qed.

Section ShortlistFacts.
Import keywords.
Variable U : ucd.
Variable national_keywords threat_keywords : list pystr.

Local Abbreviation nat_hits_of := (predicates.nat_hits_of U national_keywords).
Local Abbreviation thr_hits_of := (predicates.thr_hits_of U threat_keywords).
Local Abbreviation after_layer1 := (predicates.after_layer1 U national_keywords).
Local Abbreviation after_layer2 := (predicates.after_layer2 U threat_keywords).

(** No loop of the filter changes the text of an article. *)
Lemma haystack_reset (a : Article) : _article_haystack (reset_fields a) = _article_haystack a.
Proof. reflexivity. Qed.

Lemma haystack_write (a : Article) (n t : list pystr) (b : bool) :
  _article_haystack (_write_layer1_fields a n t b) = _article_haystack a.
Proof. reflexivity. Qed.

(** X2. The two-layer shortlist filter recomputes the funnel from the
    texts alone. For every article of the list: [kw_national_hits] are the
    national keywords found in its haystack, [kw_threat_hits] are the
    threat keywords found there if a national keyword was found and empty
    otherwise, and [shortlisted] is true exactly when both lists are
    non-empty, whatever the three fields held before. [national_pass] are
    the listed articles with a national hit, in order, and [threat_pass]
    those of [national_pass] with a threat hit. *)
Theorem shortlist_funnel (s : store) (articles : list ref) (r : ref) :
  let hay := fun r => _article_haystack (s r) in
  let out := shortlist_articles_two_layer U s articles national_keywords threat_keywords in
  let s' := fst out in
  (In r articles ->
     kw_national_hits (kw (s' r)) = nat_hits_of (hay r)
     /\ kw_threat_hits (kw (s' r))
        = (if nonempty (nat_hits_of (hay r)) then thr_hits_of (hay r) else nil)
     /\ shortlisted (kw (s' r))
        = Some (nonempty (kw_national_hits (kw (s' r)))
                && nonempty (kw_threat_hits (kw (s' r)))))
  /\ articles_all (snd out) = articles
  /\ national_pass (snd out) = List.filter (fun r => nonempty (nat_hits_of (hay r))) articles
  /\ threat_pass (snd out)
     = List.filter (fun r => nonempty (thr_hits_of (hay r))) (national_pass (snd out)).
Proof.
  cbv zeta. unfold shortlist_articles_two_layer.
  set (s0 := reset_loop s articles).
  assert (H0 : forall r, _article_haystack (s0 r) = _article_haystack (s r)).
  { intros r0. unfold s0, reset_loop. apply (fold_upd_key _ _article_haystack reset_fields).
    exact haystack_reset. }
  (* Layer 1 *)
  pose proof (loop_spec pystr _article_haystack
                (fun a => _write_layer1_fields a (nat_hits_of (_article_haystack a)) nil false)
                (fun a => nonempty (nat_hits_of (_article_haystack a)))
                (fun a => length (nat_hits_of (_article_haystack a)))
                (fun k => nonempty (nat_hits_of k))
                after_layer1
                (layer1_body U (_compile_keyword_patterns U national_keywords))
                (fun _ _ _ _ => eq_refl) (fun a => eq_refl) (fun a => eq_refl)
                (fun a => conj eq_refl (conj eq_refl eq_refl))
                articles s0 nil O) as L1.
  destruct (fold_left (layer1_body U (_compile_keyword_patterns U national_keywords))
              articles (s0, nil, O)) as [[s1 np] n1].
  destruct L1 as (K1 & P1 & F1 & A1). simpl in A1.
  (* Layer 2 *)
  pose proof (loop_spec (pystr * list pystr)
                (fun a => (_article_haystack a, kw_national_hits (kw a)))
                (fun a => _write_layer1_fields a (kw_national_hits (kw a))
                            (thr_hits_of (_article_haystack a))
                            (nonempty (kw_national_hits (kw a))
                             && nonempty (thr_hits_of (_article_haystack a))))
                (fun a => nonempty (kw_national_hits (kw a))
                          && nonempty (thr_hits_of (_article_haystack a)))
                (fun a => length (thr_hits_of (_article_haystack a)))
                (fun k => nonempty (snd k) && nonempty (thr_hits_of (fst k)))
                after_layer2
                (layer2_body U (_compile_keyword_patterns U threat_keywords))
                (fun _ _ _ _ => eq_refl) (fun a => eq_refl) (fun a => eq_refl)
                (fun a => conj eq_refl (conj eq_refl eq_refl))
                np s1 nil O) as L2.
  destruct (fold_left (layer2_body U (_compile_keyword_patterns U threat_keywords))
              np (s1, nil, O)) as [[s2 tp] n2].
  destruct L2 as (K2 & P2 & F2 & A2). simpl in A2.
  simpl fst. simpl snd. cbn [articles_all national_pass threat_pass].
  assert (Hnp : np = List.filter (fun r => nonempty (nat_hits_of (_article_haystack (s r))))
                       articles).
  { rewrite A1. apply List.filter_ext. intros r0. now rewrite H0. }
  split; [|split; [reflexivity|split; [exact Hnp|]]].
  - intros Hin.
    destruct (P1 r Hin) as (N1 & T1 & S1). rewrite H0 in N1.
    destruct (in_dec Nat.eq_dec r np) as [Hr|Hr].
    + destruct (P2 r Hr) as (N2 & T2 & S2). simpl fst in *. simpl snd in *.
      rewrite K1, H0 in T2, S2. rewrite N1 in N2, S2.
      assert (Hne : nonempty (nat_hits_of (_article_haystack (s r))) = true).
      { rewrite Hnp in Hr. apply List.filter_In in Hr. tauto. }
      rewrite N2, T2, S2, Hne. repeat split; reflexivity.
    + rewrite (F2 r Hr), N1, T1, S1.
      assert (Hne : nonempty (nat_hits_of (_article_haystack (s r))) = false).
      { destruct (nonempty (nat_hits_of (_article_haystack (s r)))) eqn:E; [|reflexivity].
        exfalso. apply Hr. rewrite Hnp. apply List.filter_In. tauto. }
      rewrite Hne. repeat split; reflexivity.
  - rewrite A2. rewrite Hnp at 1.
    (* on [national_pass] the national hits are non-empty *)
    rewrite <- Hnp.
    apply List.filter_ext_in. intros r0 Hr0.
    assert (Hin0 : In r0 articles).
    { rewrite Hnp in Hr0. apply List.filter_In in Hr0. tauto. }
    destruct (P1 r0 Hin0) as (N1 & _). rewrite H0 in N1.
    rewrite N1, K1, H0.
    rewrite Hnp in Hr0. apply List.filter_In in Hr0. destruct Hr0 as [_ Hne].
    now rewrite Hne.
Qed.

End ShortlistFacts.

(** ** Strings *)

Lemma eqb_str_eq (s t : pystr) : eqb_str s t = true <-> s = t.
Proof.
  revert t. induction s as [|c s IH]; intros [|d t]; simpl; try (split; congruence).
  rewrite andb_true_iff, N.eqb_eq, IH. split; [intros [-> ->]|intros [= -> ->]]; auto.
Qed.

Lemma eqb_str_refl (s : pystr) : eqb_str s s = true.
Proof. now apply eqb_str_eq. Qed.

(** ** Risk fusion: range and frame *)

Section FusionRange.
Import analysis_layers predicates.

(** X3. [compute_risk_index] assigns nothing but [risk_index]; on every
    article of the list the stored value lies in [0, 100], whatever the
    scores it is computed from (absent, negative, beyond 100, infinite or
    NaN); an article outside the list keeps its value. *)
Theorem risk_index_in_range (s : store) (articles : list ref) (r : ref) :
  let s' := compute_risk_index s articles in
  (ident (s' r) = ident (s r) /\ meta (s' r) = meta (s r) /\ content (s' r) = content (s r)
   /\ run (s' r) = run (s r) /\ kw (s' r) = kw (s r) /\ layer2 (s' r) = layer2 (s r)
   /\ layer3 (s' r) = layer3 (s r) /\ legacy (s' r) = legacy (s r) /\ raw (s' r) = raw (s r))
  /\ (if existsb (Nat.eqb r) articles
      then in_0_100 (risk_index (s' r))
      else risk_index (s' r) = risk_index (s r)).
Proof.
  cbv zeta. rewrite compute_risk_index_at.
  destruct (existsb (Nat.eqb r) articles).
  - split; [now repeat split|]. simpl. unfold risk_of. apply clamped_in_0_100.
  - split; [now repeat split|reflexivity].
Qed.

End FusionRange.

(** ** Layer 3: what is stored *)

Section Layer3Stored.
Import analysis_layers predicates.
Variable U : ucd.
Variable E : llm_env.

Lemma clean_vector_allowed (v : pystr) : In (_clean_vector U v) allowed_vectors.
Proof.
  unfold _clean_vector, allowed_vectors. cbv zeta.
  destruct (existsb _ _) eqn:Hex.
  - apply existsb_exists in Hex. destruct Hex as (x & Hin & Heq).
    apply eqb_str_eq in Heq. now rewrite Heq.
  - simpl. tauto.
Qed.

Lemma firstn_all_nonempty (n : nat) (l : list pystr) :
  Forall (fun s => s <> nil) l -> Forall (fun s => s <> nil) (firstn n l).
Proof.
  intros H. revert n. induction H as [|x l Hx Hl IH]; intros [|n]; simpl; constructor; auto.
Qed.

Lemma filter_nonempty (l : list pystr) :
  Forall (fun s => s <> nil)
    (List.filter (fun x => match x with nil => false | _ => true end) l).
Proof.
  induction l as [|x l IH]; simpl; [constructor|].
  destruct x; [assumption|]. constructor; [discriminate|assumption].
Qed.

(** At most four reasons are kept, none of them empty. *)
Lemma reasons_of_bounded (rs : pyval) :
  (length (reasons_of E rs) <= 4)%nat /\ Forall (fun s => s <> nil) (reasons_of E rs).
Proof.
  unfold reasons_of.
  set (kept := firstn 6 _).
  assert (Hne : Forall (fun s => s <> nil) kept).
  { apply firstn_all_nonempty, filter_nonempty. }
  destruct (4 <? length kept)%nat eqn:Hlen.
  - split; [apply length_firstn_le || (rewrite length_firstn; lia)|now apply firstn_all_nonempty].
  - apply Nat.ltb_ge in Hlen. split; assumption.
Qed.

(** X4. What a parsed object leaves on an article. If its
    [one_liner_threat] is absent, falsy or a string, the article is stored
    with a [threat_score] in [0, 100], the [threat_level] of that score,
    a [threat_vector] out of the seven allowed ones, and at most four
    reasons, none empty; no field outside the Layer 3 group changes.
    Otherwise the call raises and nothing is stored. *)
Theorem score_from_object_stored (obj : gmap pystr pyval) (a : Article) :
  match score_from_object U E obj a with
  | Stored a' =>
      (ident a' = ident a /\ meta a' = meta a /\ content a' = content a /\ run a' = run a
       /\ kw a' = kw a /\ layer2 a' = layer2 a /\ risk_index a' = risk_index a
       /\ legacy a' = legacy a /\ raw a' = raw a)
      /\ in_0_100 (threat_score (layer3 a'))
      /\ (exists t, threat_score (layer3 a') = Some t
                    /\ threat_level (layer3 a') = Some (_threat_level_from_score t))
      /\ (exists v, threat_vector (layer3 a') = Some v /\ In v allowed_vectors)
      /\ (length (reasons (layer3 a')) <= 4)%nat
      /\ Forall (fun s => s <> nil) (reasons (layer3 a'))
  | Raised _ =>
      forall text, or_else (get obj "one_liner_threat" (PStr nil)) (PStr nil) <> PStr text
  end.
Proof.
  unfold score_from_object.
  destruct (or_else (get obj "one_liner_threat" (PStr nil)) (PStr nil)) eqn:Hone;
    try (intros text; discriminate).
  cbn [layer3 set_layer3 ident meta content run kw layer2 risk_index legacy raw
       threat_score threat_level threat_vector reasons].
  split; [now repeat split|].
  split; [apply clamped_in_0_100|].
  split; [eexists; split; reflexivity|].
  split; [eexists; split; [reflexivity|apply clean_vector_allowed]|].
  apply reasons_of_bounded.
Qed.

End Layer3Stored.

(** ** Layer 3: failures and the run *)

Section Layer3Run.
Import analysis_layers predicates.
Variable U : ucd.
Variable E : llm_env.

Lemma layer3_touch_refl (a : Article) : layer3_touch a a.
Proof.
  unfold layer3_touch. repeat split. exists nil. now rewrite app_nil_r.
Qed.

Lemma layer3_touch_trans (a b c : Article) :
  layer3_touch a b -> layer3_touch b c -> layer3_touch a c.
Proof.
  unfold layer3_touch.
  intros (I1 & M1 & R1 & K1 & L1 & X1 & G1 & W1 & T1 & N1 & E1 & (n1 & A1))
         (I2 & M2 & R2 & K2 & L2 & X2 & G2 & W2 & T2 & N2 & E2 & (n2 & A2)).
  repeat split; try congruence.
  exists (n1 ++ n2). now rewrite A2, A1, app_assoc.
Qed.

Lemma kept_or_set_str_or (old : option pystr) (d : pystr) :
  kept_or_set old (opt_str_or old d).
Proof.
  unfold kept_or_set, opt_str_or, str_or.
  destruct old as [[|c s]|]; try reflexivity; now eexists.
Qed.

Lemma keep_or_default_kept (score : float) (note : pystr) (a : Article) :
  failure_kept note a (keep_or_default score note a).
Proof.
  unfold failure_kept, keep_or_default. cbn.
  split; [|split; [reflexivity|split; [now eexists|]]].
  - unfold layer3_touch. cbn. repeat split. now eexists.
  - repeat split; apply kept_or_set_str_or.
Qed.

(** X5. A failed scoring never drops or blanks an article. When the model
    call raises, or the completion holds no JSON object (or an empty one),
    the article is stored with exactly one more extraction note that names
    the failure, with [threat_score], [threat_level], [threat_vector] and
    [one_liner_threat] all defined, with every non-empty value it had
    before kept, and with no other field changed. Otherwise the object is
    scored. *)
Theorem layer3_failure_keeps_article (a : Article) :
  match llm_call E a with
  | LlmRaises what =>
      exists a', layer3_step U E a = Stored a'
                 /\ failure_kept (py "LLM_ERROR: " ++ what) a a'
  | LlmText text =>
      match _extract_json_object U text with
      | Some obj =>
          if bool_decide (obj = ∅)
          then exists a', layer3_step U E a = Stored a'
                          /\ failure_kept (py "LLM_PARSE_ERROR: could not extract JSON") a a'
          else layer3_step U E a = score_from_object U E obj a
      | None =>
          exists a', layer3_step U E a = Stored a'
                     /\ failure_kept (py "LLM_PARSE_ERROR: could not extract JSON") a a'
      end
  end.
Proof.
  unfold layer3_step.
  destruct (llm_call E a) as [what|text].
  - eexists. split; [reflexivity|apply keep_or_default_kept].
  - destruct (_extract_json_object U text) as [obj|]; simpl.
    + destruct (bool_decide (obj = ∅)); [|reflexivity].
      eexists. split; [reflexivity|apply keep_or_default_kept].
    + eexists. split; [reflexivity|apply keep_or_default_kept].
Qed.

(** Scoring a parsed object touches only the Layer 3 group. *)
Lemma score_from_object_touch (obj : gmap pystr pyval) (a a' : Article) :
  score_from_object U E obj a = Stored a' -> layer3_touch a a'.
Proof.
  unfold score_from_object.
  destruct (or_else (get obj "one_liner_threat" (PStr nil)) (PStr nil)); try discriminate.
  intros [= <-]. unfold layer3_touch. cbn. repeat split.
  exists nil. now rewrite app_nil_r.
Qed.

(** One step of the loop touches only what Layer 3 may touch. *)
Lemma layer3_step_touch (a a' : Article) :
  layer3_step U E a = Stored a' -> layer3_touch a a'.
Proof.
  unfold layer3_step.
  destruct (llm_call E a) as [what|text].
  - intros [= <-]. apply keep_or_default_kept.
  - destruct (no_object (_extract_json_object U text)).
    + intros [= <-]. apply keep_or_default_kept.
    + apply score_from_object_touch.
Qed.

Lemma layer3_loop_touch (articles : list ref) (s : store) (r : ref) :
  layer3_touch (s r) (fst (layer3_loop U E s articles) r)
  /\ (~ In r articles -> fst (layer3_loop U E s articles) r = s r).
Proof.
  revert s. induction articles as [|x l IH]; intros s; simpl.
  - split; [apply layer3_touch_refl|reflexivity].
  - destruct (layer3_step U E (s x)) as [a'|what] eqn:Hstep; simpl.
    + destruct (IH (upd s x a')) as [T F]. split.
      * eapply layer3_touch_trans; [|exact T].
        destruct (Nat.eq_dec r x) as [->|Hne].
        -- rewrite upd_same. now apply layer3_step_touch.
        -- rewrite upd_other by assumption. apply layer3_touch_refl.
      * intros Hnin. rewrite F by tauto. apply upd_other. intros ->. tauto.
    + split; [apply layer3_touch_refl|reflexivity].
Qed.

(** X6. A Layer 3 run changes, on any article, nothing but the Layer 3
    fields and the extraction notes, which only grow; it leaves every
    article outside the list as it was; and with a blank model path, a
    path that is no file or a model that fails to load it raises before
    any article is touched. *)
Theorem run_layer3_frame (s : store) (articles : list ref) (model_path : pystr) (r : ref) :
  let out := run_layer3_llm_scoring U E s articles model_path in
  layer3_touch (s r) (fst out r)
  /\ (~ In r articles -> fst out r = s r)
  /\ (if match strip model_path with nil => true | p => negb (isfile E p) end
      then fst out r = s r
           /\ snd out = Some (py "RuntimeError: Model file not found: " ++ strip model_path)
      else match load_llama_raises E with
           | Some what => fst out r = s r /\ snd out = Some what
           | None => out = layer3_loop U E s articles
           end).
Proof.
  cbv zeta. unfold run_layer3_llm_scoring.
  destruct (strip model_path) as [|c p] eqn:Hpath; simpl.
  - split; [apply layer3_touch_refl|]. repeat split; reflexivity.
  - destruct (isfile E (c :: p)); simpl.
    + destruct (load_llama_raises E) as [what|]; simpl.
      * split; [apply layer3_touch_refl|]. repeat split; reflexivity.
      * destruct (layer3_loop_touch articles s r) as [T F].
        split; [exact T|split; [exact F|reflexivity]].
    + split; [apply layer3_touch_refl|]. repeat split; reflexivity.
Qed.

End Layer3Run.

(** ** Articles: saving and loading *)

Section RoundTrip.
Import predicates.
Variable str_other : pyval -> pystr.

Lemma strs_of_map (l : list pystr) : strs_of (map PStr l) = Some l.
Proof. induction l as [|x l IH]; simpl; [reflexivity|now rewrite IH]. Qed.

Lemma read_strs_of (d : gmap pystr pyval) (k : string) (l : list pystr) :
  d !! py k = Some (of_strs l) -> read_strs d k = Some l.
Proof.
  intros H. unfold read_strs, get, or_else. rewrite H. unfold of_strs.
  destruct l; simpl; [reflexivity|]. now rewrite strs_of_map.
Qed.

Lemma read_str_of (d : gmap pystr pyval) (k : string) (s : pystr) :
  d !! py k = Some (PStr s) -> read_str str_other d k = s.
Proof.
  intros H. unfold read_str, get, or_else. rewrite H. now destruct s.
Qed.

Lemma read_opt_str_of (d : gmap pystr pyval) (k : string) (x : option pystr) :
  d !! py k = Some (of_opt_str x) -> read_opt_str d k = Some x.
Proof. intros H. unfold read_opt_str. rewrite H. now destruct x. Qed.

Lemma read_opt_float_of (d : gmap pystr pyval) (k : string) (x : option float) :
  d !! py k = Some (of_opt_float x) -> read_opt_float d k = Some x.
Proof. intros H. unfold read_opt_float. rewrite H. now destruct x. Qed.

Lemma read_opt_bool_of (d : gmap pystr pyval) (k : string) (x : option bool) :
  d !! py k = Some (of_opt_bool x) -> read_opt_bool d k = Some x.
Proof. intros H. unfold read_opt_bool. rewrite H. now destruct x. Qed.

Lemma read_int_of (d : gmap pystr pyval) (k : string) (z : Z) :
  d !! py k = Some (PInt z) -> read_int d k = Some z.
Proof.
  intros H. unfold read_int, get, or_else. rewrite H. simpl.
  destruct (Z.eqb_spec z 0) as [->|]; reflexivity.
Qed.

Lemma read_dict_of (d : gmap pystr pyval) (k : string) (m : gmap pystr pyval) :
  d !! py k = Some (PDict m) -> read_dict d k = Some m.
Proof.
  intros H. unfold read_dict, get, or_else. rewrite H. simpl.
  destruct (bool_decide_reflect (m = ∅)) as [->|]; reflexivity.
Qed.

(** A dictionary display answers a key with its first pair. *)
Lemma lookup_list_to_map (l : list (pystr * pyval)) (k : pystr) :
  (list_to_map l : gmap pystr pyval) !! k = assoc k l.
Proof.
  induction l as [|[k' v] l IH]; simpl; [apply lookup_empty|].
  destruct (eqb_str k k') eqn:Hk.
  - apply eqb_str_eq in Hk. subst k'. apply lookup_insert_eq.
  - rewrite lookup_insert_ne; [exact IH|].
    intros ->. rewrite eqb_str_refl in Hk. discriminate.
Qed.

(** A read that succeeds passes its value on. *)
Lemma bind_read {A B : Type} (x : option A) (v : A) (f : A -> option B) (r : option B) :
  x = Some v -> f v = r -> x ≫= f = r.
Proof. intros -> <-. reflexivity. Qed.

Ltac saved d := subst d; unfold to_dict; rewrite lookup_list_to_map; reflexivity.

Ltac read_one d :=
  first [ eapply read_strs_of | eapply read_opt_str_of | eapply read_opt_float_of
        | eapply read_opt_bool_of | eapply read_int_of | eapply read_dict_of ];
  saved d.

Ltac step d := eapply bind_read; [read_one d|cbv beta zeta].

(** What loading a saved article gives, field by field. *)
Lemma from_dict_to_dict_eq (a : Article) :
  from_dict str_other (to_dict a)
  = match hits_or_raw (kw_national_hits (kw a)) (raw a) "kw_national_hits",
          hits_or_raw (kw_threat_hits (kw a)) (raw a) "kw_threat_hits" with
    | Some n, Some t => Some (set_kw (kw_reloaded (kw a) n t) a)
    | _, _ => None
    end.
Proof.
  set (d := to_dict a). unfold from_dict.
  do 5 step d.
  change (match kw_national_hits (kw a) with
          | nil => read_strs (raw a) "kw_national_hits"
          | _ :: _ => Some (kw_national_hits (kw a))
          end) with (hits_or_raw (kw_national_hits (kw a)) (raw a) "kw_national_hits").
  destruct (hits_or_raw (kw_national_hits (kw a)) (raw a) "kw_national_hits") as [n|];
    [|reflexivity].
  cbn [mbind option_bind].
  step d.
  change (match kw_threat_hits (kw a) with
          | nil => read_strs (raw a) "kw_threat_hits"
          | _ :: _ => Some (kw_threat_hits (kw a))
          end) with (hits_or_raw (kw_threat_hits (kw a)) (raw a) "kw_threat_hits").
  destruct (hits_or_raw (kw_threat_hits (kw a)) (raw a) "kw_threat_hits") as [t|];
    [|reflexivity].
  cbn [mbind option_bind].
  repeat step d.
  repeat (erewrite (read_str_of d) by saved d).
  clear d.
  destruct a as [[] [] [] [] [km kn kt nr tr sh nh th] [] [] ? [] rw]. cbn.
  destruct km, kn; reflexivity.
Qed.


(** X8. An article whose legacy keyword list is empty or whose national
    matches are not, and whose [raw] holds no hits under [kw_national_hits]
    and [kw_threat_hits] unless the article has hits of its own, is loaded
    back from its dictionary exactly. *)
Theorem from_dict_to_dict_exact (a : Article) :
  (keywords_matched (kw a) = nil \/ keywords_national_matched (kw a) <> nil) ->
  (kw_national_hits (kw a) <> nil \/ read_strs (raw a) "kw_national_hits" = Some nil) ->
  (kw_threat_hits (kw a) <> nil \/ read_strs (raw a) "kw_threat_hits" = Some nil) ->
  from_dict str_other (to_dict a) = Some a.
Proof.
  intros Hk Hn Ht. rewrite from_dict_to_dict_eq.
  assert (En : hits_or_raw (kw_national_hits (kw a)) (raw a) "kw_national_hits"
               = Some (kw_national_hits (kw a))).
  { unfold hits_or_raw. destruct (kw_national_hits (kw a)); [|reflexivity].
    destruct Hn as [Hn|Hn]; [congruence|exact Hn]. }
  assert (Et : hits_or_raw (kw_threat_hits (kw a)) (raw a) "kw_threat_hits"
               = Some (kw_threat_hits (kw a))).
  { unfold hits_or_raw. destruct (kw_threat_hits (kw a)); [|reflexivity].
    destruct Ht as [Ht|Ht]; [congruence|exact Ht]. }
  rewrite En, Et. f_equal.
  destruct a as [i m c r k l2 l3 ri lg rw]. unfold set_kw, kw_reloaded. cbn.
  f_equal. destruct k as [km kn kt nr tr sh nh th]. cbn in *. f_equal.
  destruct km; [reflexivity|]. destruct kn; [|reflexivity].
  destruct Hk as [Hk|Hk]; congruence.
Qed.

End RoundTrip.

(** The article of the Layer 2 scenario is loaded back exactly. *)
Lemma from_dict_to_dict_exact_witness :
  from_dict (fun _ => nil) (to_dict scenarios.islamabad_blast) = Some scenarios.islamabad_blast.
Proof.
  apply (from_dict_to_dict_exact (fun _ => nil) scenarios.islamabad_blast).
  - left. reflexivity.
  - left. discriminate.
  - left. discriminate.
Defined.
